(** * Caller resolution: caller_resolver.py, caller_resolver_bak.py, logkit/filters.py

    Shallow embedding of the two stack walkers [resolve_caller_module] and
    [resolve_caller_filename], the legacy walker [aaa], and the logging
    filter [CallerInfoFilter.filter]; then, from setup_venv.py, the version
    parsing, the choice of interpreter and the two activation methods, with
    the interpreter and file system as an explicit [world] and the mutable
    [os.environ] and [sys] attributes as an explicit [py_state].

    The interpreter stack is a list of frames, innermost first: the head is
    the frame returned by [inspect.currentframe()] inside the resolver, and
    [frame.f_back] is the tail.  Running off the end of the list is
    [frame is None].  Python strings are [string] (ASCII). *)

From stdpp Require Import base gmap strings.
From Stdlib Require Import String Ascii ZArith Lia Bool List.
Import ListNotations.
Open Scope string_scope.
Open Scope list_scope.

(** ** Python values read from frames *)

(** A read of a frame attribute either yields a value or raises. *)
Inductive pyread (A : Type) : Type :=
| Ok (a : A)
| Fault.
Arguments Ok {A} a.
Arguments Fault {A}.

(** A frame object.  [f_globals_name] is [frame.f_globals.get("__name__")]
    before the default: [None] when the key is absent.  [co_filename] is
    [frame.f_code.co_filename]. *)
Record frame := mk_frame {
  f_globals_name : pyread (option string);
  co_filename : pyread string
}.

(** [str | MissingMark] *)
Inductive result :=
| RStr (s : string)
| RMissing.

(** A call either returns a value or lets an exception escape. *)
Inductive outcome :=
| Returned (r : result)
| Raised.

(** [str | AbstractSet[str] | None] as accepted by the resolvers. *)
Inductive excl_arg :=
| ENone
| EStr (s : string)
| ESet (xs : list string).

(** ** String helpers *)

(** [s.startswith(p)] *)
Fixpoint startswith (s p : string) : bool :=
  match p, s with
  | EmptyString, _ => true
  | String c p', String d s' => Ascii.eqb c d && startswith s' p'
  | String _ _, EmptyString => false
  end.

(** [p in s] for strings: substring containment ([""] is in every string). *)
Fixpoint str_contains (p s : string) : bool :=
  startswith s p ||
  match s with
  | EmptyString => false
  | String _ s' => str_contains p s'
  end.

Definition ascii_lower (c : ascii) : ascii :=
  let n := nat_of_ascii c in
  if (65 <=? n)%nat && (n <=? 90)%nat then ascii_of_nat (n + 32) else c.

(** [s.lower()] on ASCII strings. *)
Fixpoint str_lower (s : string) : string :=
  match s with
  | EmptyString => EmptyString
  | String c s' => String (ascii_lower c) (str_lower s')
  end.

(** [bool(s)] for a string. *)
Definition str_truthy (s : string) : bool :=
  match s with EmptyString => false | _ => true end.

(** Components of a POSIX path, as [pathlib] parses them: separators are
    collapsed and ["."] components dropped. *)
Fixpoint split_slash (acc : string) (s : string) : list string :=
  match s with
  | EmptyString => [acc]
  | String c s' =>
      if Ascii.eqb c "/"%char then acc :: split_slash EmptyString s'
      else split_slash (String.append acc (String c EmptyString)) s'
  end.

(** [Path(p).name] *)
Definition path_name (p : string) : string :=
  List.last (filter (fun c => str_truthy c && negb (String.eqb c ".")) (split_slash "" p)) "".

(** [while frame and (max_stack_depth is None or inspected < max_stack_depth)]:
    the depth half of the loop guard. *)
Definition depth_ok (max_stack_depth : option Z) (inspected : Z) : bool :=
  match max_stack_depth with
  | None => true
  | Some d => (inspected <? d)%Z
  end.

(** Result of one traversal loop. *)
Inductive walk_out :=
| WFound (s : string)   (** the loop executed [return] *)
| WDone                 (** the loop guard became false *)
| WRaise.               (** an exception escaped the loop body *)

(** ** resolve_caller_module (caller_resolver.py, lines 37-156) *)
Module Module_resolver.

(** Normalisation of [excluded_prefixes] into [prefix_set]. *)
Definition prefix_set_of (excluded_prefixes : excl_arg) : list string :=
  match excluded_prefixes with
  | ENone => []
  | EStr p => [p]
  | ESet xs => xs
  end.

(** [module_name and (not prefix_set or not any(module_name.startswith(prefix) ...))] *)
Definition module_accepts (prefix_set : list string) (module_name : string) : bool :=
  str_truthy module_name &&
  (match prefix_set with [] => true | _ => false end
   || negb (existsb (fun prefix => startswith module_name prefix) prefix_set)).

(** [frame.f_globals.get("__name__", "")] *)
Definition read_name (f : frame) : pyread string :=
  match f_globals_name f with
  | Ok (Some n) => Ok n
  | Ok None => Ok ""
  | Fault => Fault
  end.

(** The [while] loop, with [inspected] threaded through. *)
Fixpoint walk (prefix_set : list string) (max_stack_depth : option Z)
    (inspected : Z) (frames : list frame) : walk_out :=
  match frames with
  | [] => WDone
  | f :: rest =>
      if depth_ok max_stack_depth inspected then
        match read_name f with
        | Fault => WRaise
        | Ok module_name =>
            if module_accepts prefix_set module_name then WFound module_name
            else walk prefix_set max_stack_depth (inspected + 1) rest
        end
      else WDone
  end.

(** [__name__ if fallback_to_current else MISSING] *)
Definition fallback (this_name : string) (fallback_to_current : bool) : result :=
  if fallback_to_current then RStr this_name else RMissing.

(** The skip loop [for _ in range(stack_start)]: [None] when [frame is None]
    is met inside it, otherwise the frame chain left after it. *)
Fixpoint skip (n : nat) (frames : list frame) : option (list frame) :=
  match n, frames with
  | O, _ => Some frames
  | S _, [] => None
  | S n', _ :: rest => skip n' rest
  end.

(** [this_name] is the module's own [__name__]. *)
Definition resolve_caller_module (this_name : string) (stack : list frame)
    (stack_start : Z) (max_stack_depth : option Z) (excluded_prefixes : excl_arg)
    (fallback_to_current : bool) : outcome :=
  let prefix_set := prefix_set_of excluded_prefixes in
  match skip (Z.to_nat stack_start) stack with
  | None => Returned (fallback this_name fallback_to_current)
  | Some frames =>
      match walk prefix_set max_stack_depth 0 frames with
      | WFound m => Returned (RStr m)
      | WDone => Returned (fallback this_name fallback_to_current)
      | WRaise => Raised
      end
  end.

End Module_resolver.

(** ** aaa (caller_resolver_bak.py, lines 37-139) *)
Module Bak.

(** [prefix_tuple]: [()], [(excluded_prefixes,)] or [tuple(excluded_prefixes)]. *)
Definition prefix_tuple_of (excluded_prefixes : excl_arg) : list string :=
  match excluded_prefixes with
  | ENone => []
  | EStr p => [p]
  | ESet xs => xs
  end.

(** [str.startswith(tuple)]: true when some element of the tuple is a prefix. *)
Fixpoint startswith_tuple (s : string) (prefixes : list string) : bool :=
  match prefixes with
  | [] => false
  | p :: ps => if startswith s p then true else startswith_tuple s ps
  end.

Definition module_accepts (prefix_tuple : list string) (module_name : string) : bool :=
  str_truthy module_name &&
  (match prefix_tuple with [] => true | _ => false end
   || negb (startswith_tuple module_name prefix_tuple)).

Fixpoint walk (prefix_tuple : list string) (max_stack_depth : option Z)
    (inspected : Z) (frames : list frame) : walk_out :=
  match frames with
  | [] => WDone
  | f :: rest =>
      if depth_ok max_stack_depth inspected then
        match Module_resolver.read_name f with
        | Fault => WRaise
        | Ok module_name =>
            if module_accepts prefix_tuple module_name then WFound module_name
            else walk prefix_tuple max_stack_depth (inspected + 1) rest
        end
      else WDone
  end.

Definition aaa (this_name : string) (stack : list frame)
    (stack_start : Z) (max_stack_depth : option Z) (excluded_prefixes : excl_arg)
    (fallback_to_current : bool) : outcome :=
  let prefix_tuple := prefix_tuple_of excluded_prefixes in
  match Module_resolver.skip (Z.to_nat stack_start) stack with
  | None => Returned (if fallback_to_current then RStr this_name else RMissing)
  | Some frames =>
      match walk prefix_tuple max_stack_depth 0 frames with
      | WFound m => Returned (RStr m)
      | WDone => Returned (if fallback_to_current then RStr this_name else RMissing)
      | WRaise => Raised
      end
  end.

End Bak.

(** ** resolve_caller_filename (caller_resolver.py, lines 159-344) *)
Module File_resolver.

(** The default [excluded_patterns]; [this_file] is the module's [__file__]. *)
Definition default_patterns (this_file : string) : list string :=
  [this_file; "logging/__init__.py"; "<frozen importlib._bootstrap>";
   "<frozen importlib._bootstrap_external>"; "importlib/__init__.py";
   "site-packages"; "<stdin>"; "<string>"; "<"; "venv/"; ".venv/"; "virtualenv/"].

Definition pattern_set_of (this_file : string) (excluded_patterns : excl_arg) : list string :=
  match excluded_patterns with
  | ENone => default_patterns this_file
  | EStr p => [p]
  | ESet xs => xs
  end.

(** The fixed list [["venv", ".venv", "virtualenv"]]. *)
Definition venv_patterns : list string := ["venv"; ".venv"; "virtualenv"].

(** [should_exclude] as computed by lines 310-322. *)
Definition should_exclude (pattern_set : list string) (caller_path : string) : bool :=
  let should_exclude := existsb (fun pattern => str_contains pattern caller_path) pattern_set in
  let caller_path_lower := str_lower caller_path in
  if negb should_exclude &&
     existsb (fun venv_pattern => str_contains venv_pattern caller_path_lower) venv_patterns
  then true else should_exclude.

(** [caller_path in seen_files] *)
Definition seen_mem (caller_path : string) (seen_files : list string) : bool :=
  existsb (String.eqb caller_path) seen_files.

(** The [while] loop of lines 301-329. *)
Fixpoint walk (pattern_set : list string) (max_stack_depth : option Z)
    (inspected : Z) (seen_files : list string) (frames : list frame) : walk_out :=
  match frames with
  | [] => WDone
  | f :: rest =>
      if depth_ok max_stack_depth inspected then
        match co_filename f with
        | Fault => WRaise
        | Ok caller_path =>
            if negb (seen_mem caller_path seen_files) then
              let seen_files' := caller_path :: seen_files in
              if negb (should_exclude pattern_set caller_path) then WFound caller_path
              else walk pattern_set max_stack_depth (inspected + 1) seen_files' rest
            else walk pattern_set max_stack_depth (inspected + 1) seen_files rest
        end
      else WDone
  end.

(** [Path(p).name if return_basename else p] *)
Definition fmt (return_basename : bool) (p : string) : string :=
  if return_basename then path_name p else p.

(** The fallback code (lines 289-294 and 339-344, identical); [argv] is
    [sys.argv], empty when unavailable. *)
Definition fallback (this_file : string) (argv : list string) (return_basename : bool)
    (fallback_to_argv fallback_to_current : bool) : result :=
  match fallback_to_argv, argv with
  | true, path :: _ => RStr (fmt return_basename path)
  | _, _ =>
      if fallback_to_current then RStr (fmt return_basename this_file)
      else RMissing
  end.

(** How the [try] block ends. *)
Inductive body_out :=
| BReturn (r : result)   (** a [return] inside the [try] *)
| BFallthrough           (** the loop ended normally *)
| BRaise.                (** an exception reached [except Exception] *)

Definition resolve_caller_filename (this_file : string) (argv : list string)
    (stack : list frame) (stack_start : Z) (max_stack_depth : option Z)
    (excluded_patterns : excl_arg) (return_basename fallback_to_argv fallback_to_current : bool)
    : outcome :=
  let pattern_set := pattern_set_of this_file excluded_patterns in
  let body :=
    match Module_resolver.skip (Z.to_nat stack_start) stack with
    | None => BReturn (fallback this_file argv return_basename fallback_to_argv fallback_to_current)
    | Some frames =>
        match walk pattern_set max_stack_depth 0 [] frames with
        | WFound caller_path => BReturn (RStr (fmt return_basename caller_path))
        | WDone => BFallthrough
        | WRaise => BRaise
        end
    end in
  match body with
  | BReturn r => Returned r
  | BFallthrough | BRaise =>
      (* [except Exception: pass], then the fallbacks *)
      Returned (fallback this_file argv return_basename fallback_to_argv fallback_to_current)
  end.

End File_resolver.

(** ** CallerInfoFilter (logkit/filters.py, lines 199-325) *)
Module Filters.

(** Python objects stored as record attributes. *)
Inductive pyobj :=
| PyStrObj (s : string)
| PyMissingObj                (** the [MISSING] sentinel *)
| PyOtherObj (tag : nat).     (** any other attribute value *)

Definition obj_of_result (r : result) : pyobj :=
  match r with RStr s => PyStrObj s | RMissing => PyMissingObj end.

(** The attribute dictionary of a [logging.LogRecord]. *)
Abbreviation log_record := (gmap string pyobj).

Record caller_info_filter := {
  attribute_name : string;
  exclude_patterns : list string;
  stack_offset : Z;
  fallback_to_argv : bool
}.

Inductive filter_out :=
| FReturn (allow : bool) (record : log_record)
| FRaise.

(** [filter(self, record)]; [stack] is the frame chain seen from inside
    [resolve_caller_filename] when it is called here, [this_file] the
    resolver module's [__file__]. *)
Definition filter (this_file : string) (argv : list string) (stack : list frame)
    (self : caller_info_filter) (record : log_record) : filter_out :=
  match File_resolver.resolve_caller_filename this_file argv stack
          (8 + stack_offset self) None (ESet (exclude_patterns self))
          true (fallback_to_argv self) true with
  | Returned caller => FReturn true (<[attribute_name self := obj_of_result caller]> record)
  | Raised => FRaise
  end.

End Filters.

(** ** bbb (caller_resolver_bak.py, lines 142-278) *)
Module Bak_file.

(** The default [exclude_patterns] of [bbb]; [this_file] is its [__file__]. *)
Definition default_exclude_patterns (this_file : string) : list string :=
  [this_file; "logging/__init__.py"; "<frozen importlib._bootstrap>";
   "<frozen importlib._bootstrap_external>"; "importlib/__init__.py";
   "site-packages"; "<stdin>"; "<string>"].

(** [inspect.stack()]: the file names of all frames, innermost first; it
    raises ([None]) when reading any frame fails. *)
Fixpoint inspect_stack (frames : list frame) : option (list string) :=
  match frames with
  | [] => Some []
  | f :: rest =>
      match co_filename f with
      | Fault => None
      | Ok p => option_map (cons p) (inspect_stack rest)
      end
  end.

(** [l[start:]] for a Python list, negative [start] counting from the end. *)
Definition py_slice_from {A} (start : Z) (l : list A) : list A :=
  if (0 <=? start)%Z then skipn (Z.to_nat start) l
  else skipn (Z.to_nat (Z.of_nat (List.length l) + start)) l.

(** The [for frame_info in stack] loop; [None] when it ends without a return. *)
Fixpoint loop (exclude_patterns : list string) (seen_files : list string)
    (stack : list string) : option string :=
  match stack with
  | [] => None
  | caller_path :: rest =>
      if File_resolver.seen_mem caller_path seen_files then loop exclude_patterns seen_files rest
      else
        let seen_files' := caller_path :: seen_files in
        if existsb (fun pattern => str_contains pattern caller_path) exclude_patterns then
          loop exclude_patterns seen_files' rest
        else if str_contains "<" caller_path
             || str_contains "venv" (str_lower caller_path)
             || str_contains ".venv" (str_lower caller_path)
             || str_contains "virtualenv" (str_lower caller_path) then
          loop exclude_patterns seen_files' rest
        else Some caller_path
  end.

(** The fallbacks of [bbb] (lines 239-243 and 274-278, identical). *)
Definition fallback (this_file : string) (argv : list string)
    (fallback_to_argv fallback_to_current : bool) : result :=
  match fallback_to_argv, argv with
  | true, path :: _ => RStr (path_name path)
  | _, _ => if fallback_to_current then RStr (path_name this_file) else RMissing
  end.

Definition bbb (this_file : string) (argv : list string) (frames : list frame)
    (stack_start : Z) (exclude_patterns : option (list string))
    (fallback_to_argv fallback_to_current : bool) : outcome :=
  let exclude_patterns :=
    match exclude_patterns with
    | None => default_exclude_patterns this_file
    | Some e => e
    end in
  match inspect_stack frames with
  | None => Returned (fallback this_file argv fallback_to_argv fallback_to_current)
  | Some all =>
      match loop exclude_patterns [] (py_slice_from stack_start all) with
      | Some caller_path => Returned (RStr (path_name caller_path))
      | None => Returned (fallback this_file argv fallback_to_argv fallback_to_current)
      end
  end.

End Bak_file.

(** ** CallerInfoFilter.__init__ (logkit/filters.py, lines 267-298) *)
Module Filter_init.

(** The default set built when no override is given. *)
Definition default_exclude_patterns : list string :=
  ["logging/__init__.py"; "<frozen importlib._bootstrap>";
   "<frozen importlib._bootstrap_external>"; "importlib/__init__.py";
   "site-packages"; "<stdin>"; "<string>"].

(** Set union is modelled by concatenation: the patterns are only ever
    tested for membership through [any]. *)
Definition init (attribute_name : string) (exclude_patterns override_exclude_patterns : option (list string))
    (stack_offset : Z) (fallback_to_argv : bool) : Filters.caller_info_filter :=
  let patterns :=
    match override_exclude_patterns with
    | Some o => o
    | None =>
        match exclude_patterns with
        | Some ((_ :: _) as e) => default_exclude_patterns ++ e
        | _ => default_exclude_patterns
        end
    end in
  {| Filters.attribute_name := attribute_name;
     Filters.exclude_patterns := patterns;
     Filters.stack_offset := stack_offset;
     Filters.fallback_to_argv := fallback_to_argv |}.

End Filter_init.

(** ** LevelRangeFilter (logkit/filters.py, lines 51-196) *)
Module Level_filter.

(** The numeric bounds are Python floats holding either an integer level
    (the result of [convert_level_to_int]) or [float("-inf")] /
    [float("inf")]; Python compares [int] with [float] exactly. *)
Inductive level_bound :=
| NegInf
| Fin (z : Z)
| PosInf.

(** [bound <= levelno] *)
Definition bound_le (b : level_bound) (levelno : Z) : bool :=
  match b with NegInf => true | Fin z => (z <=? levelno)%Z | PosInf => false end.

(** [bound < levelno] *)
Definition bound_lt (b : level_bound) (levelno : Z) : bool :=
  match b with NegInf => true | Fin z => (z <? levelno)%Z | PosInf => false end.

(** [bound >= levelno] *)
Definition bound_ge (b : level_bound) (levelno : Z) : bool :=
  match b with NegInf => false | Fin z => (levelno <=? z)%Z | PosInf => true end.

(** [bound > levelno] *)
Definition bound_gt (b : level_bound) (levelno : Z) : bool :=
  match b with NegInf => false | Fin z => (levelno <? z)%Z | PosInf => true end.

(** [self.min_level > self.max_level] between two bounds. *)
Definition bound_gt_bound (a b : level_bound) : bool :=
  match a, b with
  | NegInf, _ => false
  | Fin _, NegInf => true
  | Fin x, Fin y => (y <? x)%Z
  | Fin _, PosInf => false
  | PosInf, PosInf => false
  | PosInf, _ => true
  end.

(** The filter object after [__init__]; the comparators are the bound
    methods chosen there. *)
Record level_range_filter := {
  filter_name : string;
  min_level : level_bound;
  max_level : level_bound;
  _min_comparator : Z -> bool;
  _max_comparator : Z -> bool
}.

Section Init.
(** [convert_level_to_int] (logkit/logging_utils.py) is not among the
    sources: it is left abstract, [None] standing for a raised exception. *)
Variable level_arg : Type.
Variable convert_level_to_int : level_arg -> option Z.

(** [convert_level_to_int(level) if level is not None else float(default)] *)
Definition resolve_bound (level : option level_arg) (open_bound : level_bound)
    : option level_bound :=
  match level with
  | None => Some open_bound
  | Some l => option_map Fin (convert_level_to_int l)
  end.

(** [LevelRangeFilter.__init__]; [None] when it raises. *)
Definition init (name : string) (min_level max_level : option level_arg)
    (min_inclusive max_inclusive : bool) : option level_range_filter :=
  match resolve_bound min_level NegInf with
  | None => None
  | Some lo =>
      match resolve_bound max_level PosInf with
      | None => None
      | Some hi =>
          Some {| filter_name := name; min_level := lo; max_level := hi;
                  _min_comparator := if min_inclusive then bound_le lo else bound_lt lo;
                  _max_comparator := if max_inclusive then bound_ge hi else bound_gt hi |}
      end
  end.
End Init.

(** [LevelRangeFilter.filter], applied to [record.levelno]. *)
Definition filter (self : level_range_filter) (levelno : Z) : bool :=
  if bound_gt_bound (min_level self) (max_level self) then false
  else
    let pass_min_check := _min_comparator self levelno in
    let pass_max_check := _max_comparator self levelno in
    pass_min_check && pass_max_check.

End Level_filter.

(** ** Regular expressions of setup_venv.py *)

(** A backtracking matcher, in continuation-passing style, for the
    constructs the patterns of [parse_python_version] and
    [activate_virtualenv] use.  Alternatives and optional parts are tried
    left first, repetitions longest first, as [re] does. *)
Module Py_re.

(** [RClass cls min] is the greedy repetition [cls{min,}] of one character
    class; [ROpt r] is the greedy [r?]; [REnd] is [$]. *)
Inductive regex : Type :=
| RLit (lit : string)
| RClass (cls : ascii -> bool) (min : nat)
| RSeq (r1 r2 : regex)
| RAlt (r1 r2 : regex)
| ROpt (r : regex)
| RGroup (name : string) (r : regex)
| REnd.

(** Captured groups, the latest capture first. *)
Definition captures := list (string * string).

Fixpoint str_drop (n : nat) (s : string) : string :=
  match n, s with
  | O, _ => s
  | S n', String _ s' => str_drop n' s'
  | S _, EmptyString => EmptyString
  end.

(** Length of the longest prefix of [s] in the class. *)
Fixpoint class_run (cls : ascii -> bool) (s : string) : nat :=
  match s with
  | String c s' => if cls c then S (class_run cls s') else O
  | EmptyString => O
  end.

(** Try the repetition counts [n], [n - 1], ..., [min] in turn. *)
Fixpoint try_counts {A : Type} (k : string -> captures -> option A) (s : string)
    (caps : captures) (min n : nat) : option A :=
  if Nat.ltb n min then None
  else
    match k (str_drop n s) caps with
    | Some x => Some x
    | None => match n with O => None | S n' => try_counts k s caps min n' end
    end.

(** Character comparison, with [re.IGNORECASE] when [icase]. *)
Definition char_eq (icase : bool) (a b : ascii) : bool :=
  if icase then Ascii.eqb (ascii_lower a) (ascii_lower b) else Ascii.eqb a b.

Fixpoint lit_match (icase : bool) (lit s : string) : option string :=
  match lit, s with
  | EmptyString, _ => Some s
  | String c l', String d s' => if char_eq icase c d then lit_match icase l' s' else None
  | String _ _, EmptyString => None
  end.

Fixpoint m {A : Type} (icase : bool) (r : regex) (s : string) (caps : captures)
    (k : string -> captures -> option A) : option A :=
  match r with
  | RLit lit => match lit_match icase lit s with Some s' => k s' caps | None => None end
  | RClass cls min => try_counts k s caps min (class_run cls s)
  | RSeq r1 r2 => m icase r1 s caps (fun s' caps' => m icase r2 s' caps' k)
  | RAlt r1 r2 =>
      match m icase r1 s caps k with Some x => Some x | None => m icase r2 s caps k end
  | ROpt r => match m icase r s caps k with Some x => Some x | None => k s caps end
  | RGroup name r =>
      m icase r s caps
        (fun s' caps' =>
           k s' ((name, substring 0 (String.length s - String.length s') s) :: caps'))
  | REnd =>
      if String.eqb s "" || String.eqb s (String "010"%char EmptyString) then k s caps
      else None
  end.

(** [re.match]: anchored at the start, any suffix may remain. *)
Definition re_match (icase : bool) (r : regex) (s : string) : option captures :=
  m icase r s [] (fun _ caps => Some caps).

(** [re.fullmatch]: the whole string must be consumed. *)
Definition re_fullmatch (icase : bool) (r : regex) (s : string) : option captures :=
  m icase r s [] (fun s' caps => if String.eqb s' "" then Some caps else None).

(** [match.group(name)]: the latest capture, [None] if the group did not
    take part in the match. *)
Fixpoint group (name : string) (caps : captures) : option string :=
  match caps with
  | [] => None
  | (n, v) :: caps' => if String.eqb n name then Some v else group name caps'
  end.

(** Every character of [s] is in the class. *)
Fixpoint all_chars (cls : ascii -> bool) (s : string) : bool :=
  match s with
  | EmptyString => true
  | String c s' => cls c && all_chars cls s'
  end.

(** [\d] and [\s] on ASCII characters. *)
Definition is_digit (c : ascii) : bool :=
  let n := nat_of_ascii c in (48 <=? n)%nat && (n <=? 57)%nat.

Definition is_space (c : ascii) : bool :=
  let n := nat_of_ascii c in
  (n =? 32)%nat || ((9 <=? n)%nat && (n <=? 13)%nat) || ((28 <=? n)%nat && (n <=? 31)%nat).

(** [{0,3}] of a group, greedy: [(r(r(r)?)?)?]. *)
Definition rep03 (r : regex) : regex := ROpt (RSeq r (ROpt (RSeq r (ROpt r)))).

End Py_re.

(** ** setup_venv.py *)
Module Venv.
Import Py_re.

(** [^python(?:\s*|\s+)?(?:(?P<major>\d+)(?:\.(?P<minor>\d+))?)?(?:\.\d+)?$] *)
Definition version_pattern : regex :=
  RSeq (RLit "python")
  (RSeq (ROpt (RAlt (RClass is_space 0) (RClass is_space 1)))
  (RSeq (ROpt (RSeq (RGroup "major" (RClass is_digit 1))
                    (ROpt (RSeq (RLit ".") (RGroup "minor" (RClass is_digit 1))))))
  (RSeq (ROpt (RSeq (RLit ".") (RClass is_digit 1)))
        REnd))).

(** [int(s)] for a string of decimal digits. *)
Fixpoint py_int_acc (acc : Z) (s : string) : Z :=
  match s with
  | EmptyString => acc
  | String c s' => py_int_acc (10 * acc + (Z.of_nat (nat_of_ascii c) - 48)) s'
  end.

Definition py_int (s : string) : Z := py_int_acc 0 s.

(** [parse_python_version] (lines 247-303). *)
Definition parse_python_version (py_exec : string) : Z * Z :=
  let version_str := path_name py_exec in
  let '(major, minor) :=
    match re_match true version_pattern version_str with
    | Some mt => (group "major" mt, group "minor" mt)
    | None => (None, None)
    end in
  match major with
  | Some mj =>
      if str_truthy mj then
        (py_int mj, match minor with Some mn => py_int mn | None => (-1)%Z end)
      else ((-1)%Z, (-1)%Z)
  | None => ((-1)%Z, (-1)%Z)
  end.

(** [^python(\d+(\.\d+){0,3})?$] and [^python(\d+(\.\d+){0,3})?\.exe$]. *)
Definition exec_pattern_posix : regex :=
  RSeq (RLit "python")
  (RSeq (ROpt (RGroup "1" (RSeq (RClass is_digit 1)
                                (rep03 (RGroup "2" (RSeq (RLit ".") (RClass is_digit 1)))))))
        REnd).

Definition exec_pattern_windows : regex :=
  RSeq (RLit "python")
  (RSeq (ROpt (RGroup "1" (RSeq (RClass is_digit 1)
                                (rep03 (RGroup "2" (RSeq (RLit ".") (RClass is_digit 1)))))))
  (RSeq (RLit ".exe") REnd)).

(** Tuple comparison [a < b] on [(major, minor)]. *)
Definition key_lt (a b : Z * Z) : bool :=
  (fst a <? fst b)%Z || ((fst a =? fst b)%Z && (snd a <? snd b)%Z).

(** Stable ascending sort by a key (insertion sort; a stable sort's
    output is determined by the keys and the input order). *)
Fixpoint insert_stable {A : Type} (key : A -> Z * Z) (x : A) (l : list A) : list A :=
  match l with
  | [] => [x]
  | y :: ys => if key_lt (key x) (key y) then x :: l else y :: insert_stable key x ys
  end.

Definition sort_stable {A : Type} (key : A -> Z * Z) (l : list A) : list A :=
  fold_left (fun acc x => insert_stable key x acc) l [].

(** [sorted(l, key=key, reverse=True)]: the list is reversed, sorted
    stably and reversed again, so equal keys keep their order. *)
Definition sorted_reverse {A : Type} (key : A -> Z * Z) (l : list A) : list A :=
  rev (sort_stable key (rev l)).

(** [str.split(sep)] with an explicit one-character separator. *)
Fixpoint py_split (sep : ascii) (acc : string) (s : string) : list string :=
  match s with
  | EmptyString => [acc]
  | String c s' =>
      if Ascii.eqb c sep then acc :: py_split sep EmptyString s'
      else py_split sep (String.append acc (String c EmptyString)) s'
  end.

(** [sep.join(parts)] *)
Fixpoint py_join (sep : ascii) (parts : list string) : string :=
  match parts with
  | [] => EmptyString
  | [x] => x
  | x :: xs => String.append x (String sep (py_join sep xs))
  end.

(** [str.strip()] on ASCII strings. *)
Fixpoint lstrip_list (cs : list ascii) : list ascii :=
  match cs with
  | c :: cs' => if is_space c then lstrip_list cs' else cs
  | [] => []
  end.

Definition py_strip (s : string) : string :=
  string_of_list_ascii
    (rev (lstrip_list (rev (lstrip_list (list_ascii_of_string s))))).

(** The interpreter state the activation reads and writes. *)
Record py_state := mk_state {
  environ : gmap string string;
  sys_path : list string;
  sys_prefix : string;
  sys_base_prefix : option string;
  sys_real_prefix : option string
}.

(** The outside world: the platform, path handling, the file system and
    the effects of other programs.  [run_python_version p] is the standard
    output of the version subprocess, [None] when [subprocess.run] raises;
    [run_activate_this] returns whether [runpy.run_path] completed and the
    state it leaves. *)
Record world := mk_world {
  platform_system : string;
  pathsep : ascii;
  path_join : string -> string -> string;
  path_exists : string -> bool;
  path_is_dir : string -> bool;
  path_is_file : string -> bool;
  path_resolve : string -> string;
  run_python_version : string -> option string;
  addsitedir : string -> list string -> list string;
  run_activate_this : string -> py_state -> bool * py_state;
  iterdir : string -> list string
}.

Definition VENV_PROMPT : string := "python-scripts".

Definition SYS_PLATFORM (w : world) : string := str_lower (platform_system w).

(** [is_in_virtualenv] (lines 178-194). *)
Definition is_in_virtualenv (st : py_state) : bool :=
  let base_prefix_differs :=
    match sys_base_prefix st with
    | Some b => negb (String.eqb (sys_prefix st) b)
    | None => false
    end in
  let has_real_prefix := match sys_real_prefix st with Some _ => true | None => false end in
  base_prefix_differs || has_real_prefix.

(** [get_python_version_str] (lines 196-245). *)
Definition get_python_version_str (w : world) (py_path : string) : option string :=
  match run_python_version w py_path with
  | None => None
  | Some out =>
      let py_version := py_strip out in
      if startswith py_version "python" then Some py_version else None
  end.

(** [validate_path_exists_and_type] (lines 344-391). *)
Definition validate_path_exists_and_type (w : world) (path : string) (path_type : string) : bool :=
  if negb (path_exists w path) then false
  else if String.eqb path_type "dir" && negb (path_is_dir w path) then false
  else if String.eqb path_type "file" && negb (path_is_file w path) then false
  else true.

(** [get_site_packages_path] (lines 394-419). *)
Definition get_site_packages_path (w : world) (lib_path py_version_str : string) : option string :=
  if str_contains "windows" (SYS_PLATFORM w) then
    Some (path_resolve w (path_join w lib_path "site-packages"))
  else if str_contains "darwin" (SYS_PLATFORM w) || str_contains "linux" (SYS_PLATFORM w) then
    Some (path_resolve w (path_join w (path_join w lib_path py_version_str) "site-packages"))
  else None.

(** [activate_via_activate_this] (lines 306-341). *)
Definition activate_via_activate_this (w : world) (activate_this_path : string)
    (st : py_state) : bool * py_state :=
  if negb (path_is_file w activate_this_path) then (false, st)
  else run_activate_this w activate_this_path st.

(** [activate_manually] (lines 422-550).  The four paths are checked in
    the dictionary's order. *)
Definition activate_manually (w : world) (venv_path venv_bin_path venv_lib_path venv_py_path : string)
    (st : py_state) : bool * py_state :=
  let paths := [(venv_path, "dir"); (venv_bin_path, "dir"); (venv_lib_path, "dir");
                (venv_py_path, "file")] in
  if negb (forallb (fun '(p, t) => validate_path_exists_and_type w p t) paths) then (false, st)
  else
    let old_path := match environ st !! "PATH" with Some v => v | None => "" end in
    let env1 := <["PATH" := py_join (pathsep w) (venv_bin_path :: py_split (pathsep w) "" old_path)]>
                  (environ st) in
    let env2 := <["VIRTUAL_ENV" := venv_path]> env1 in
    let env3 := <["VIRTUAL_ENV_PROMPT" :=
                    if str_truthy VENV_PROMPT then VENV_PROMPT else path_name venv_path]> env2 in
    let st1 := {| environ := env3; sys_path := sys_path st; sys_prefix := sys_prefix st;
                  sys_base_prefix := sys_base_prefix st; sys_real_prefix := sys_real_prefix st |} in
    match get_python_version_str w venv_py_path with
    | None => (false, st1)
    | Some python_version_str =>
        if negb (str_truthy python_version_str) then (false, st1) else
        match get_site_packages_path w venv_lib_path python_version_str with
        | None => (false, st1)
        | Some venv_site_path =>
            if negb (validate_path_exists_and_type w venv_site_path "dir") then (false, st1)
            else
              let prev_length := List.length (sys_path st1) in
              let sp := addsitedir w venv_site_path (sys_path st1) in
              (true, {| environ := env3;
                        sys_path := skipn prev_length sp ++ firstn prev_length sp;
                        sys_prefix := venv_path;
                        sys_base_prefix := sys_base_prefix st;
                        sys_real_prefix := Some (sys_prefix st) |})
        end
    end.

(** [activate_virtualenv] (lines 553-644). *)
Definition activate_virtualenv (w : world) (venv_path : string) (st : py_state) : bool * py_state :=
  let layout :=
    if str_contains "windows" (SYS_PLATFORM w) then Some ("Scripts", "Lib", exec_pattern_windows)
    else if str_contains "darwin" (SYS_PLATFORM w) || str_contains "linux" (SYS_PLATFORM w) then
      Some ("bin", "lib", exec_pattern_posix)
    else None in
  match layout with
  | None => (false, st)
  | Some (bin_name, lib_name, py_exec_pattern) =>
      let py_activate_this := path_join w (path_join w venv_path bin_name) "activate_this.py" in
      let venv_bin_path := path_join w venv_path bin_name in
      let venv_lib_path := path_join w venv_path lib_name in
      if negb (validate_path_exists_and_type w venv_bin_path "dir") then (false, st)
      else
        let python_executables :=
          filter (fun p => match re_fullmatch false py_exec_pattern (path_name p) with
                           | Some _ => true | None => false end)
                 (iterdir w venv_bin_path) in
        match python_executables with
        | [] => (false, st)
        | _ =>
            match sorted_reverse parse_python_version python_executables with
            | [] => (false, st)
            | venv_py_path :: _ =>
                let '(ok, st1) := activate_via_activate_this w py_activate_this st in
                if ok then (true, st1)
                else activate_manually w venv_path venv_bin_path venv_lib_path venv_py_path st1
            end
        end
  end.

(** The code run on import (lines 646-657): [Exited] is [sys.exit(1)]. *)
Inductive import_out :=
| Imported (st : py_state)
| Exited (st : py_state).

Definition on_import (w : world) (VENV_PATH : string) (st : py_state) : import_out :=
  if is_in_virtualenv st then Imported st
  else
    let '(ok, st1) := activate_virtualenv w VENV_PATH st in
    if ok then Imported st1 else Exited st1.

End Venv.

(** ** Small evaluations *)

Definition fr (name path : string) : frame := mk_frame (Ok (Some name)) (Ok path).

Example path_name_ex : path_name "/home/u/app/main.py" = "main.py".
Proof. reflexivity. Qed.

Example module_ex :
  Module_resolver.resolve_caller_module "caller_resolver"
    [fr "pkg.internal" "a"; fr "pkg.sub" "b"; fr "app.main" "c"] 0 None (ESet ["pkg."]) true
  = Returned (RStr "app.main").
Proof. reflexivity. Qed.

Example file_ex :
  File_resolver.resolve_caller_filename "/lib/caller_resolver.py" ["/x/run.py"]
    [fr "m" "/lib/caller_resolver.py"; fr "m" "/home/VENV/a.py"; fr "m" "/home/app/main.py"]
    1 None (ESet []) true true true
  = Returned (RStr "main.py").
Proof. reflexivity. Qed.

(** How a module resolver turns its traversal result into its return
    value, given its own [__name__]. *)
Definition conclude_module (this_name : string) (fallback_to_current : bool)
    (o : walk_out) : outcome :=
  match o with
  | WFound m => Returned (RStr m)
  | WDone => Returned (Module_resolver.fallback this_name fallback_to_current)
  | WRaise => Raised
  end.

(** ** General facts about the traversal *)

Lemma skip_cases (n : nat) (stack : list frame) :
  Module_resolver.skip n stack = Some (skipn n stack) \/
  (Module_resolver.skip n stack = None /\ skipn n stack = []).
Proof.
  revert stack; induction n as [|n IH]; intros [|f stack]; simpl; auto.
Qed.

Lemma skip_le (n : nat) (stack : list frame) :
  (n <= List.length stack)%nat -> Module_resolver.skip n stack = Some (skipn n stack).
Proof.
  revert stack; induction n as [|n IH]; intros [|f stack] H; simpl in *;
    auto; try lia. apply IH; lia.
Qed.

Lemma drop_cons_length {A} (n : nat) (l l' rest : list A) (x : A) :
  skipn n l = l' ++ x :: rest -> (n <= List.length l)%nat.
Proof.
  intros H. destruct (Nat.le_gt_cases n (List.length l)) as [|Hgt]; [assumption|].
  rewrite drop_ge in H by lia. destruct l'; discriminate.
Qed.

Lemma depth_ok_mono (maxd : option Z) (i j : Z) :
  (i <= j)%Z -> depth_ok maxd j = true -> depth_ok maxd i = true.
Proof.
  destruct maxd as [d|]; simpl; auto. intros Hle Hj.
  apply Z.ltb_lt in Hj. apply Z.ltb_lt. lia.
Qed.

Lemma module_accepts_iff (ps : list string) (m : string) :
  Module_resolver.module_accepts ps m = true <->
  m <> "" /\ Forall (fun p => startswith m p = false) ps.
Proof.
  unfold Module_resolver.module_accepts. rewrite andb_true_iff.
  assert (Ht : str_truthy m = true <-> m <> "") by
    (destruct m; simpl; split; intros; congruence).
  rewrite Ht. apply and_iff_compat_l. destruct ps as [|p ps].
  - simpl. split; auto.
  - simpl orb. rewrite negb_true_iff, Forall_forall.
    split.
    + intros H q Hq. destruct (startswith m q) eqn:E; [|reflexivity].
      exfalso. assert (existsb (fun prefix => startswith m prefix) (p :: ps) = true)
        by (apply existsb_exists; eauto). simpl in *; congruence.
    + intros H. apply not_true_iff_false. intros E. change (existsb (fun prefix => startswith m prefix) (p :: ps) = true) in E.
      apply existsb_exists in E as [q [Hq Hs]]. rewrite H in Hs by exact Hq. discriminate.
Qed.

Lemma should_exclude_or (ps : list string) (p : string) :
  File_resolver.should_exclude ps p =
  existsb (fun pattern => str_contains pattern p) ps ||
  existsb (fun v => str_contains v (str_lower p)) File_resolver.venv_patterns.
Proof.
  unfold File_resolver.should_exclude.
  destruct (existsb _ ps), (existsb _ File_resolver.venv_patterns); reflexivity.
Qed.

Lemma depth_ok_cons {A} (maxd : option Z) (i : Z) (x : A) (l : list A) :
  depth_ok maxd (i + Z.of_nat (List.length (x :: l))) = true ->
  depth_ok maxd i = true /\ depth_ok maxd (i + 1 + Z.of_nat (List.length l)) = true.
Proof.
  intros H. split; eapply depth_ok_mono; try exact H; cbn [List.length]; lia.
Qed.

Lemma module_walk_first (ps : list string) (maxd : option Z) :
  forall (fpre : list frame) (pre : list string) (i : Z) (f : frame) (s : string) rest,
  map Module_resolver.read_name fpre = map Ok pre ->
  Forall (fun m => Module_resolver.module_accepts ps m = false) pre ->
  Module_resolver.read_name f = Ok s ->
  Module_resolver.module_accepts ps s = true ->
  depth_ok maxd (i + Z.of_nat (List.length pre)) = true ->
  Module_resolver.walk ps maxd i (fpre ++ f :: rest) = WFound s.
Proof.
  induction fpre as [|g fpre IH]; intros [|m pre] i f s rest Hmap Hrej Hf Hs Hd;
    try discriminate.
  - simpl in *. rewrite Z.add_0_r in Hd. rewrite Hd, Hf, Hs. reflexivity.
  - injection Hmap as Hg Hmap. inversion Hrej as [|? ? Hm Hrej']; subst.
    apply depth_ok_cons in Hd as [Hi Hd].
    simpl. rewrite Hi, Hg, Hm. apply IH with pre; auto.
Qed.

Lemma file_walk_first (ps : list string) (maxd : option Z) :
  forall (fpre : list frame) (pre : list string) (i : Z) (seen : list string)
         (f : frame) (p : string) rest,
  Forall (fun q => File_resolver.should_exclude ps q = true) seen ->
  map co_filename fpre = map Ok pre ->
  Forall (fun q => File_resolver.should_exclude ps q = true) pre ->
  co_filename f = Ok p ->
  File_resolver.should_exclude ps p = false ->
  depth_ok maxd (i + Z.of_nat (List.length pre)) = true ->
  File_resolver.walk ps maxd i seen (fpre ++ f :: rest) = WFound p.
Proof.
  induction fpre as [|g fpre IH]; intros [|q pre] i seen f p rest Hseen Hmap Hrej Hf Hp Hd;
    try discriminate.
  - simpl in *. rewrite Z.add_0_r in Hd. rewrite Hd, Hf.
    assert (Hm : File_resolver.seen_mem p seen = false).
    { unfold File_resolver.seen_mem. apply not_true_iff_false. intros E.
      apply existsb_exists in E as [q [Hq Heq]]. apply String.eqb_eq in Heq; subst q.
      rewrite Forall_forall in Hseen. rewrite (Hseen p Hq) in Hp. discriminate. }
    rewrite Hm, Hp. reflexivity.
  - injection Hmap as Hg Hmap. inversion Hrej as [|? ? Hq Hrej']; subst.
    apply depth_ok_cons in Hd as [Hi Hd].
    simpl. rewrite Hi, Hg.
    destruct (File_resolver.seen_mem q seen); simpl.
    + apply IH with pre; auto.
    + rewrite Hq. simpl. apply IH with pre; auto.
Qed.

Lemma module_resolve_skipn (this : string) (stack : list frame) (n : Z)
    (maxd : option Z) (excl : excl_arg) (ftc : bool) :
  Module_resolver.resolve_caller_module this stack n maxd excl ftc =
  Module_resolver.resolve_caller_module this (skipn (Z.to_nat n) stack) 0 maxd excl ftc.
Proof.
  unfold Module_resolver.resolve_caller_module. change (Z.to_nat 0) with O.
  destruct (skip_cases (Z.to_nat n) stack) as [H|[H H']]; rewrite H; [reflexivity|].
  rewrite H'. reflexivity.
Qed.

Lemma file_resolve_skipn (this : string) (argv : list string) (stack : list frame) (n : Z)
    (maxd : option Z) (excl : excl_arg) (rb fta ftc : bool) :
  File_resolver.resolve_caller_filename this argv stack n maxd excl rb fta ftc =
  File_resolver.resolve_caller_filename this argv (skipn (Z.to_nat n) stack) 0 maxd excl rb fta ftc.
Proof.
  unfold File_resolver.resolve_caller_filename. change (Z.to_nat 0) with O.
  destruct (skip_cases (Z.to_nat n) stack) as [H|[H H']]; rewrite H; [reflexivity|].
  rewrite H'. reflexivity.
Qed.

Lemma module_walk_firstn (ps : list string) (d : Z) :
  forall (fs : list frame) (i : Z),
  Module_resolver.walk ps (Some d) i fs =
  Module_resolver.walk ps (Some d) i (firstn (Z.to_nat (d - i)) fs).
Proof.
  induction fs as [|f fs IH]; intros i.
  - rewrite firstn_nil. reflexivity.
  - cbn [Module_resolver.walk depth_ok].
    destruct (Z.ltb_spec i d) as [Hlt|Hge].
    + replace (Z.to_nat (d - i)) with (S (Z.to_nat (d - (i + 1)))) by lia.
      cbn [firstn Module_resolver.walk depth_ok]. rewrite (proj2 (Z.ltb_lt i d) Hlt).
      destruct (Module_resolver.read_name f); [|reflexivity].
      destruct (Module_resolver.module_accepts ps a); [reflexivity|]. apply IH.
    + replace (Z.to_nat (d - i)) with O by lia. reflexivity.
Qed.

Lemma file_walk_firstn (ps : list string) (d : Z) :
  forall (fs : list frame) (i : Z) (seen : list string),
  File_resolver.walk ps (Some d) i seen fs =
  File_resolver.walk ps (Some d) i seen (firstn (Z.to_nat (d - i)) fs).
Proof.
  induction fs as [|f fs IH]; intros i seen.
  - rewrite firstn_nil. reflexivity.
  - cbn [File_resolver.walk depth_ok].
    destruct (Z.ltb_spec i d) as [Hlt|Hge].
    + replace (Z.to_nat (d - i)) with (S (Z.to_nat (d - (i + 1)))) by lia.
      cbn [firstn File_resolver.walk depth_ok]. rewrite (proj2 (Z.ltb_lt i d) Hlt).
      destruct (co_filename f); [|reflexivity].
      destruct (negb (File_resolver.seen_mem a seen)); [|apply IH].
      destruct (negb (File_resolver.should_exclude ps a)); [reflexivity|]. apply IH.
    + replace (Z.to_nat (d - i)) with O by lia. reflexivity.
Qed.

Lemma module_resolve_firstn (this : string) (stack : list frame) (n d : Z)
    (excl : excl_arg) (ftc : bool) :
  Module_resolver.resolve_caller_module this stack n (Some d) excl ftc =
  Module_resolver.resolve_caller_module this
    (firstn (Z.to_nat d) (skipn (Z.to_nat n) stack)) 0 (Some d) excl ftc.
Proof.
  rewrite module_resolve_skipn. unfold Module_resolver.resolve_caller_module.
  change (Z.to_nat 0) with O. cbn [Module_resolver.skip].
  rewrite (module_walk_firstn _ d (skipn _ _) 0), Z.sub_0_r. reflexivity.
Qed.

Lemma file_resolve_firstn (this : string) (argv : list string) (stack : list frame) (n d : Z)
    (excl : excl_arg) (rb fta ftc : bool) :
  File_resolver.resolve_caller_filename this argv stack n (Some d) excl rb fta ftc =
  File_resolver.resolve_caller_filename this argv
    (firstn (Z.to_nat d) (skipn (Z.to_nat n) stack)) 0 (Some d) excl rb fta ftc.
Proof.
  rewrite file_resolve_skipn. unfold File_resolver.resolve_caller_filename.
  change (Z.to_nat 0) with O. cbn [Module_resolver.skip].
  rewrite (file_walk_firstn _ d (skipn _ _) 0 []), Z.sub_0_r. reflexivity.
Qed.

Lemma module_resolve_found (this : string) (stack : list frame) (n : Z)
    (maxd : option Z) (excl : excl_arg) (ftc : bool) (s : string) :
  Module_resolver.walk (Module_resolver.prefix_set_of excl) maxd 0
    (skipn (Z.to_nat n) stack) = WFound s ->
  Module_resolver.resolve_caller_module this stack n maxd excl ftc = Returned (RStr s).
Proof.
  intros H. rewrite module_resolve_skipn. unfold Module_resolver.resolve_caller_module.
  change (Z.to_nat 0) with O. cbn [Module_resolver.skip]. rewrite H. reflexivity.
Qed.

Lemma file_resolve_found (this : string) (argv : list string) (stack : list frame) (n : Z)
    (maxd : option Z) (excl : excl_arg) (rb fta ftc : bool) (p : string) :
  File_resolver.walk (File_resolver.pattern_set_of this excl) maxd 0 []
    (skipn (Z.to_nat n) stack) = WFound p ->
  File_resolver.resolve_caller_filename this argv stack n maxd excl rb fta ftc =
  Returned (RStr (File_resolver.fmt rb p)).
Proof.
  intros H. rewrite file_resolve_skipn. unfold File_resolver.resolve_caller_filename.
  change (Z.to_nat 0) with O. cbn [Module_resolver.skip]. rewrite H. reflexivity.
Qed.

Lemma file_resolve_cases (this : string) (argv : list string) (stack : list frame) (n : Z)
    (maxd : option Z) (excl : excl_arg) (rb fta ftc : bool) :
  (exists p, File_resolver.resolve_caller_filename this argv stack n maxd excl rb fta ftc =
             Returned (RStr (File_resolver.fmt rb p))) \/
  File_resolver.resolve_caller_filename this argv stack n maxd excl rb fta ftc =
  Returned (File_resolver.fallback this argv rb fta ftc).
Proof.
  unfold File_resolver.resolve_caller_filename.
  destruct (Module_resolver.skip _ _); [|right; reflexivity].
  destruct (File_resolver.walk _ _ _ _ _); [left; eexists; reflexivity|right..]; reflexivity.
Qed.

Lemma module_resolve_cases (this : string) (stack : list frame) (n : Z)
    (maxd : option Z) (excl : excl_arg) (ftc : bool) :
  (exists s, Module_resolver.resolve_caller_module this stack n maxd excl ftc = Returned (RStr s)) \/
  Module_resolver.resolve_caller_module this stack n maxd excl ftc =
  Returned (Module_resolver.fallback this ftc) \/
  Module_resolver.resolve_caller_module this stack n maxd excl ftc = Raised.
Proof.
  unfold Module_resolver.resolve_caller_module.
  destruct (Module_resolver.skip _ _); [|right; left; reflexivity].
  destruct (Module_resolver.walk _ _ _ _); [left; eexists; reflexivity|right; left|right; right];
    reflexivity.
Qed.

Lemma file_resolve_returns (this : string) (argv : list string) (stack : list frame) (n : Z)
    (maxd : option Z) (excl : excl_arg) (rb fta ftc : bool) :
  exists r, File_resolver.resolve_caller_filename this argv stack n maxd excl rb fta ftc = Returned r.
Proof.
  destruct (file_resolve_cases this argv stack n maxd excl rb fta ftc) as [[p H]|H];
    rewrite H; eexists; reflexivity.
Qed.

Lemma startswith_tuple_existsb (s : string) (ps : list string) :
  Bak.startswith_tuple s ps = existsb (fun prefix => startswith s prefix) ps.
Proof.
  induction ps as [|p ps IH]; simpl; [reflexivity|]. rewrite IH. destruct (startswith s p); reflexivity.
Qed.

Lemma bak_walk_eq (excl : excl_arg) (maxd : option Z) :
  forall (fs : list frame) (i : Z),
  Bak.walk (Bak.prefix_tuple_of excl) maxd i fs =
  Module_resolver.walk (Module_resolver.prefix_set_of excl) maxd i fs.
Proof.
  assert (Hp : Bak.prefix_tuple_of excl = Module_resolver.prefix_set_of excl)
    by (destruct excl; reflexivity).
  assert (Ha : forall m, Bak.module_accepts (Bak.prefix_tuple_of excl) m =
                         Module_resolver.module_accepts (Module_resolver.prefix_set_of excl) m).
  { intros m. unfold Bak.module_accepts, Module_resolver.module_accepts.
    rewrite Hp, startswith_tuple_existsb. reflexivity. }
  induction fs as [|f fs IH]; intros i; simpl; [reflexivity|].
  destruct (depth_ok maxd i); [|reflexivity].
  destruct (Module_resolver.read_name f); [|reflexivity].
  rewrite Ha. destruct (Module_resolver.module_accepts _ a); [reflexivity|]. apply IH.
Qed.

Lemma file_walk_all_rejected (ps : list string) (maxd : option Z) :
  forall (fs : list frame) (i : Z) (seen : list string),
  Forall (fun f => exists q, co_filename f = Ok q /\ File_resolver.should_exclude ps q = true) fs ->
  File_resolver.walk ps maxd i seen fs = WDone.
Proof.
  induction fs as [|f fs IH]; intros i seen Hall; [reflexivity|].
  inversion Hall as [|? ? [q [Hq Hx]] Hall']; subst. simpl.
  destruct (depth_ok maxd i); [|reflexivity]. rewrite Hq.
  destruct (File_resolver.seen_mem q seen); simpl; [apply IH; exact Hall'|].
  rewrite Hx. simpl. apply IH. exact Hall'.
Qed.

Lemma map_repeat_ok (dups : list frame) (p : string) :
  Forall (fun f => co_filename f = Ok p) dups ->
  map co_filename dups = map Ok (repeat p (List.length dups)).
Proof.
  induction 1 as [|f dups Hf _ IH]; simpl; [reflexivity|]. rewrite Hf, IH. reflexivity.
Qed.

Lemma inspect_stack_some (fs : list frame) (paths : list string) :
  Bak_file.inspect_stack fs = Some paths -> map co_filename fs = map Ok paths.
Proof.
  revert paths; induction fs as [|f fs IH]; intros paths H; simpl in H.
  - injection H as <-. reflexivity.
  - destruct (co_filename f) eqn:Hf; [|discriminate].
    destruct (Bak_file.inspect_stack fs) as [ps|]; simpl in H; [|discriminate].
    injection H as <-. simpl. rewrite Hf, (IH ps eq_refl). reflexivity.
Qed.

Lemma inspect_stack_fault (fs : list frame) (f : frame) :
  In f fs -> co_filename f = Fault -> Bak_file.inspect_stack fs = None.
Proof.
  induction fs as [|g fs IH]; intros Hin Hf; [destruct Hin|].
  destruct Hin as [<-|Hin]; simpl; [rewrite Hf; reflexivity|].
  destruct (co_filename g); [|reflexivity]. rewrite (IH Hin Hf). reflexivity.
Qed.


Lemma file_walk_found (ps : list string) (maxd : option Z) :
  forall (fs : list frame) (i : Z) (seen : list string) (p : string),
  File_resolver.walk ps maxd i seen fs = WFound p ->
  In (Ok p) (map co_filename fs) /\ File_resolver.should_exclude ps p = false.
Proof.
  induction fs as [|f fs IH]; intros i seen p H; [discriminate|].
  cbn [File_resolver.walk] in H. destruct (depth_ok maxd i); [|discriminate].
  destruct (co_filename f) as [q|] eqn:Hf; [|discriminate].
  destruct (File_resolver.seen_mem q seen); cbn [negb] in H.
  - destruct (IH _ _ _ H) as [Hin Hx]. split; [right; exact Hin|exact Hx].
  - destruct (File_resolver.should_exclude ps q) eqn:Hq; cbn [negb] in H.
    + destruct (IH _ _ _ H) as [Hin Hx]. split; [right; exact Hin|exact Hx].
    + injection H as <-. split; [left; rewrite Hf; reflexivity|exact Hq].
Qed.

Lemma init_patterns_no_override (attr : string) (e : option (list string)) (off : Z) (fta : bool) :
  Filters.exclude_patterns (Filter_init.init attr e None off fta) =
  Filter_init.default_exclude_patterns ++ match e with Some e => e | None => [] end.
Proof. destruct e as [[|x e]|]; cbn; rewrite ?app_nil_r; reflexivity. Qed.

(** ** Claims *)

(** C1: in [resolve_caller_filename] a not-yet-seen path is rejected exactly
    when a configured pattern is a substring of it or its lower-cased form
    contains one of ["venv"], [".venv"], ["virtualenv"] (whatever the
    pattern set); the first post-skip frame (within the depth limit) whose
    path is not rejected is accepted and returned. *)
Theorem C1_file_exclusion_rule :
  (forall (ps : list string) (p : string),
     File_resolver.should_exclude ps p = true <->
     (exists pattern, In pattern ps /\ str_contains pattern p = true) \/
     (exists v, In v ["venv"; ".venv"; "virtualenv"] /\ str_contains v (str_lower p) = true)) /\
  (forall (this : string) (argv : list string) (stack : list frame) (n : Z)
          (maxd : option Z) (excl : excl_arg) (rb fta ftc : bool)
          (fpre : list frame) (f : frame) (frest : list frame) (pre : list string) (p : string),
     skipn (Z.to_nat n) stack = fpre ++ f :: frest ->
     map co_filename fpre = map Ok pre ->
     Forall (fun q => File_resolver.should_exclude (File_resolver.pattern_set_of this excl) q = true) pre ->
     co_filename f = Ok p ->
     File_resolver.should_exclude (File_resolver.pattern_set_of this excl) p = false ->
     depth_ok maxd (Z.of_nat (List.length pre)) = true ->
     File_resolver.resolve_caller_filename this argv stack n maxd excl rb fta ftc =
     Returned (RStr (File_resolver.fmt rb p))).
Proof.
  split.
  - intros ps p. rewrite should_exclude_or, orb_true_iff, !existsb_exists. reflexivity.
  - intros this argv stack n maxd excl rb fta ftc fpre f frest pre p Hs Hmap Hrej Hf Hp Hd.
    apply file_resolve_found. rewrite Hs.
    apply file_walk_first with pre; auto.
Qed.

Lemma C1_file_exclusion_rule_witness :
  (File_resolver.should_exclude [] "/home/u/Venv/lib/x.py" = true /\
   File_resolver.should_exclude ["site-packages"] "/usr/lib/site-packages/a.py" = true) /\
  File_resolver.resolve_caller_filename "/lib/caller_resolver.py" ["/x/run.py"]
    [fr "m" "/lib/caller_resolver.py"; fr "m" "/usr/lib/site-packages/a.py";
     fr "m" "/home/u/Venv/b.py"; fr "m" "/home/u/app/main.py"]
    1 None (ESet ["site-packages"]) true true true
  = Returned (RStr (File_resolver.fmt true "/home/u/app/main.py")).
Proof.
  split.
  - split; apply (proj1 C1_file_exclusion_rule).
    + right. exists "venv". split; [simpl; auto|reflexivity].
    + left. exists "site-packages". split; [simpl; auto|reflexivity].
  - apply (proj2 C1_file_exclusion_rule) with
      [fr "m" "/usr/lib/site-packages/a.py"; fr "m" "/home/u/Venv/b.py"]
      (fr "m" "/home/u/app/main.py") []
      ["/usr/lib/site-packages/a.py"; "/home/u/Venv/b.py"];
      try reflexivity.
    repeat constructor.
Defined.

(** C2: after the skip, [resolve_caller_module] returns the identifier of
    the first inspected frame that is non-empty and starts with no
    configured prefix (plain prefix test: ["foo"] excludes ["foobar"] and
    ["foo.bar"]); with prefix set [{"pkg."}] the chain
    [["pkg.internal"; "pkg.sub"; "app.main"]] resolves to ["app.main"]. *)
Theorem C2_module_first_unexcluded :
  (forall (this : string) (stack : list frame) (n : Z) (maxd : option Z)
          (excl : excl_arg) (ftc : bool)
          (fpre : list frame) (f : frame) (frest : list frame) (pre : list string) (s : string),
     skipn (Z.to_nat n) stack = fpre ++ f :: frest ->
     map Module_resolver.read_name fpre = map Ok pre ->
     Forall (fun m => m = "" \/
                      Exists (fun p => startswith m p = true) (Module_resolver.prefix_set_of excl)) pre ->
     Module_resolver.read_name f = Ok s ->
     s <> "" ->
     Forall (fun p => startswith s p = false) (Module_resolver.prefix_set_of excl) ->
     depth_ok maxd (Z.of_nat (List.length pre)) = true ->
     Module_resolver.resolve_caller_module this stack n maxd excl ftc = Returned (RStr s)) /\
  (startswith "foobar" "foo" = true /\ startswith "foo.bar" "foo" = true /\
   Module_resolver.module_accepts ["foo"] "foobar" = false /\
   Module_resolver.module_accepts ["foo"] "foo.bar" = false) /\
  Module_resolver.resolve_caller_module "caller_resolver"
    [fr "caller_resolver" "r.py"; fr "pkg.internal" "a.py"; fr "pkg.sub" "b.py"; fr "app.main" "c.py"]
    1 None (ESet ["pkg."]) true = Returned (RStr "app.main").
Proof.
  split; [|split; [repeat split|reflexivity]].
  intros this stack n maxd excl ftc fpre f frest pre s Hs Hmap Hrej Hf Hne Hok Hd.
  apply module_resolve_found. rewrite Hs.
  apply module_walk_first with pre; auto.
  - eapply Forall_impl; [|exact Hrej]. intros m Hm.
    apply not_true_iff_false. rewrite module_accepts_iff. intros [Hm1 Hm2].
    destruct Hm as [Hm|Hm]; [contradiction|].
    rewrite Forall_forall in Hm2. apply Exists_exists in Hm as [p [Hp Hsp]].
    rewrite Hm2 in Hsp by exact Hp. discriminate.
  - apply module_accepts_iff. auto.
Qed.

Lemma C2_module_first_unexcluded_witness :
  Module_resolver.resolve_caller_module "caller_resolver"
    [fr "caller_resolver" "r.py"; fr "foobar" "a.py"; fr "foo.bar" "b.py"; fr "app.main" "c.py"]
    1 None (EStr "foo") true = Returned (RStr "app.main").
Proof.
  apply (proj1 C2_module_first_unexcluded) with
    [fr "foobar" "a.py"; fr "foo.bar" "b.py"] (fr "app.main" "c.py") [] ["foobar"; "foo.bar"];
    try reflexivity.
  - repeat constructor; right; repeat constructor.
  - discriminate.
  - repeat constructor.
Defined.

(** C3 (as stated, refuted): with an empty pattern set the first post-skip
    frame with a defined path is not always accepted by the file resolver:
    a path under [.venv] is still rejected. *)
Lemma C3_counterexample :
  File_resolver.resolve_caller_filename "/lib/caller_resolver.py" ["/x/run.py"]
    [fr "m" "/lib/caller_resolver.py"; fr "m" "/home/u/.venv/bin/tool.py"]
    1 None (ESet []) true true true
  <> Returned (RStr (File_resolver.fmt true "/home/u/.venv/bin/tool.py")).
Proof. vm_compute. discriminate. Qed.

(** C3 (amended): with an empty exclusion set, the module resolver accepts
    the first post-skip frame (within the depth limit) with a non-empty
    identifier; the file resolver accepts the first post-skip frame (within
    the depth limit) whose lower-cased path contains none of ["venv"],
    [".venv"], ["virtualenv"]. *)
Theorem C3_empty_exclusion_set :
  (forall (this : string) (stack : list frame) (n : Z) (maxd : option Z)
          (excl : excl_arg) (ftc : bool)
          (fpre : list frame) (f : frame) (frest : list frame) (pre : list string) (s : string),
     Module_resolver.prefix_set_of excl = [] ->
     skipn (Z.to_nat n) stack = fpre ++ f :: frest ->
     map Module_resolver.read_name fpre = map Ok pre ->
     Forall (fun m => m = "") pre ->
     Module_resolver.read_name f = Ok s ->
     s <> "" ->
     depth_ok maxd (Z.of_nat (List.length pre)) = true ->
     Module_resolver.resolve_caller_module this stack n maxd excl ftc = Returned (RStr s)) /\
  (forall (this : string) (argv : list string) (stack : list frame) (n : Z)
          (maxd : option Z) (excl : excl_arg) (rb fta ftc : bool)
          (fpre : list frame) (f : frame) (frest : list frame) (pre : list string) (p : string),
     File_resolver.pattern_set_of this excl = [] ->
     skipn (Z.to_nat n) stack = fpre ++ f :: frest ->
     map co_filename fpre = map Ok pre ->
     Forall (fun q => Exists (fun v => str_contains v (str_lower q) = true)
                             File_resolver.venv_patterns) pre ->
     co_filename f = Ok p ->
     Forall (fun v => str_contains v (str_lower p) = false) File_resolver.venv_patterns ->
     depth_ok maxd (Z.of_nat (List.length pre)) = true ->
     File_resolver.resolve_caller_filename this argv stack n maxd excl rb fta ftc =
     Returned (RStr (File_resolver.fmt rb p))).
Proof.
  split.
  - intros this stack n maxd excl ftc fpre f frest pre s He Hs Hmap Hrej Hf Hne Hd.
    apply (proj1 C2_module_first_unexcluded) with fpre f frest pre; auto.
    + eapply Forall_impl; [|exact Hrej]. auto.
    + rewrite He. constructor.
  - intros this argv stack n maxd excl rb fta ftc fpre f frest pre p He Hs Hmap Hrej Hf Hok Hd.
    apply file_resolve_found. rewrite Hs.
    apply file_walk_first with pre; auto; rewrite ?He.
    + eapply Forall_impl; [|exact Hrej]. intros q Hq.
      rewrite should_exclude_or. apply orb_true_iff. right.
      apply existsb_exists. apply Exists_exists in Hq. exact Hq.
    + rewrite should_exclude_or. simpl existsb at 1.
      apply not_true_iff_false. intros E. apply existsb_exists in E as [v [Hv Hc]].
      rewrite Forall_forall in Hok. rewrite Hok in Hc by exact Hv. discriminate.
Qed.

Lemma C3_empty_exclusion_set_witness :
  File_resolver.resolve_caller_filename "/lib/caller_resolver.py" ["/x/run.py"]
    [fr "m" "/lib/caller_resolver.py"; fr "m" "/home/u/.venv/bin/tool.py";
     fr "m" "/home/u/app/main.py"]
    1 None (ESet []) true true true
  = Returned (RStr (File_resolver.fmt true "/home/u/app/main.py")).
Proof.
  apply (proj2 C3_empty_exclusion_set) with
    [fr "m" "/home/u/.venv/bin/tool.py"] (fr "m" "/home/u/app/main.py") []
    ["/home/u/.venv/bin/tool.py"]; try reflexivity.
  - repeat constructor.
  - repeat constructor.
Defined.

(** C4: whenever no frame is accepted (the skip count exceeds the stack,
    or the traversal ends without a match, by exhaustion, the depth limit
    or a fault), [resolve_caller_filename] returns, in order: the file name
    of [sys.argv[0]] when [fallback_to_argv] holds and [sys.argv] is
    non-empty, else its own file name when [fallback_to_current] holds,
    else [MISSING]. *)
Theorem C4_file_fallback_cascade :
  forall (this : string) (argv : list string) (stack : list frame) (n : Z)
         (maxd : option Z) (excl : excl_arg) (rb fta ftc : bool),
  ((List.length stack < Z.to_nat n)%nat \/
   forall p, File_resolver.walk (File_resolver.pattern_set_of this excl) maxd 0 []
               (skipn (Z.to_nat n) stack) <> WFound p) ->
  File_resolver.resolve_caller_filename this argv stack n maxd excl rb fta ftc =
  Returned (if fta && negb (Nat.eqb (List.length argv) 0)
            then RStr (File_resolver.fmt rb (hd "" argv))
            else if ftc then RStr (File_resolver.fmt rb this) else RMissing).
Proof.
  intros this argv stack n maxd excl rb fta ftc H.
  assert (Hw : forall p, File_resolver.walk (File_resolver.pattern_set_of this excl) maxd 0 []
                 (skipn (Z.to_nat n) stack) <> WFound p).
  { destruct H as [H|H]; [|exact H]. rewrite skipn_all2 by lia. discriminate. }
  rewrite file_resolve_skipn. unfold File_resolver.resolve_caller_filename.
  change (Z.to_nat 0) with O. cbn [Module_resolver.skip].
  assert (Hfb : File_resolver.fallback this argv rb fta ftc =
    (if fta && negb (Nat.eqb (List.length argv) 0)
     then RStr (File_resolver.fmt rb (hd "" argv))
     else if ftc then RStr (File_resolver.fmt rb this) else RMissing)).
  { unfold File_resolver.fallback. destruct fta, argv; reflexivity. }
  destruct (File_resolver.walk _ _ _ _ _) eqn:E.
  - exfalso. exact (Hw s eq_refl).
  - rewrite Hfb. reflexivity.
  - rewrite Hfb. reflexivity.
Qed.

Lemma C4_file_fallback_cascade_witness :
  File_resolver.resolve_caller_filename "/lib/caller_resolver.py" ["/x/run.py"]
    [fr "m" "/lib/caller_resolver.py"] 8 None ENone true true true
  = Returned (RStr "run.py").
Proof.
  apply (C4_file_fallback_cascade "/lib/caller_resolver.py" ["/x/run.py"]
           [fr "m" "/lib/caller_resolver.py"] 8 None ENone true true true).
  left. simpl. lia.
Defined.

(** C5: a fault while reading a frame's path in [resolve_caller_filename]
    is caught and routed to the fallback chain, so the file resolver always
    returns (a string or [MISSING]); [resolve_caller_module] has no such
    catch: a fault while reading a module identifier escapes to its caller. *)
Theorem C5_fault_asymmetry :
  (forall (this : string) (argv : list string) (stack : list frame) (n : Z)
          (maxd : option Z) (excl : excl_arg) (rb fta ftc : bool),
     exists r, File_resolver.resolve_caller_filename this argv stack n maxd excl rb fta ftc =
               Returned r) /\
  (forall (this : string) (argv : list string) (stack : list frame) (n : Z)
          (maxd : option Z) (excl : excl_arg) (rb fta ftc : bool),
     File_resolver.walk (File_resolver.pattern_set_of this excl) maxd 0 []
       (skipn (Z.to_nat n) stack) = WRaise ->
     File_resolver.resolve_caller_filename this argv stack n maxd excl rb fta ftc =
     Returned (File_resolver.fallback this argv rb fta ftc)) /\
  (forall (this : string) (stack : list frame) (n : Z) (maxd : option Z)
          (excl : excl_arg) (ftc : bool),
     Module_resolver.walk (Module_resolver.prefix_set_of excl) maxd 0
       (skipn (Z.to_nat n) stack) = WRaise ->
     Module_resolver.resolve_caller_module this stack n maxd excl ftc = Raised) /\
  (exists (stack : list frame),
     Module_resolver.resolve_caller_module "caller_resolver" stack 1 None ENone true = Raised).
Proof.
  split; [exact file_resolve_returns|split; [|split]].
  - intros this argv stack n maxd excl rb fta ftc H.
    rewrite file_resolve_skipn. unfold File_resolver.resolve_caller_filename.
    change (Z.to_nat 0) with O. cbn [Module_resolver.skip]. rewrite H. reflexivity.
  - intros this stack n maxd excl ftc H.
    rewrite module_resolve_skipn. unfold Module_resolver.resolve_caller_module.
    change (Z.to_nat 0) with O. cbn [Module_resolver.skip]. rewrite H. reflexivity.
  - exists [fr "caller_resolver" "r.py"; mk_frame Fault (Ok "x.py")]. reflexivity.
Qed.

Lemma C5_fault_asymmetry_witness :
  File_resolver.resolve_caller_filename "/lib/caller_resolver.py" ["/x/run.py"]
    [fr "m" "/lib/caller_resolver.py"; mk_frame (Ok (Some "m")) Fault] 1 None ENone true true true
  = Returned (File_resolver.fallback "/lib/caller_resolver.py" ["/x/run.py"] true true true) /\
  Module_resolver.resolve_caller_module "caller_resolver"
    [fr "caller_resolver" "r.py"; mk_frame Fault (Ok "x.py")] 1 None ENone true = Raised.
Proof.
  split.
  - apply (proj1 (proj2 C5_fault_asymmetry)). reflexivity.
  - apply (proj1 (proj2 (proj2 C5_fault_asymmetry))). reflexivity.
Defined.

(** C6: both resolvers drop the first [stack_start] frames without
    reading them and start counting [max_stack_depth] after them; with
    [max_stack_depth = d] only the first [d] post-skip frames are ever
    inspected, so a frame that would match only at position [d+1] is not
    found and the resolver falls back. *)
Theorem C6_skip_then_depth :
  (forall (this : string) (stack : list frame) (n : Z) (maxd : option Z)
          (excl : excl_arg) (ftc : bool),
     Module_resolver.resolve_caller_module this stack n maxd excl ftc =
     Module_resolver.resolve_caller_module this (skipn (Z.to_nat n) stack) 0 maxd excl ftc) /\
  (forall (this : string) (stack : list frame) (n d : Z) (excl : excl_arg) (ftc : bool),
     Module_resolver.resolve_caller_module this stack n (Some d) excl ftc =
     Module_resolver.resolve_caller_module this
       (firstn (Z.to_nat d) (skipn (Z.to_nat n) stack)) 0 (Some d) excl ftc) /\
  (forall (this : string) (argv : list string) (stack : list frame) (n : Z)
          (maxd : option Z) (excl : excl_arg) (rb fta ftc : bool),
     File_resolver.resolve_caller_filename this argv stack n maxd excl rb fta ftc =
     File_resolver.resolve_caller_filename this argv (skipn (Z.to_nat n) stack) 0 maxd excl rb fta ftc) /\
  (forall (this : string) (argv : list string) (stack : list frame) (n d : Z)
          (excl : excl_arg) (rb fta ftc : bool),
     File_resolver.resolve_caller_filename this argv stack n (Some d) excl rb fta ftc =
     File_resolver.resolve_caller_filename this argv
       (firstn (Z.to_nat d) (skipn (Z.to_nat n) stack)) 0 (Some d) excl rb fta ftc) /\
  (Module_resolver.resolve_caller_module "caller_resolver"
     [fr "caller_resolver" "r.py"; fr "pkg.a" "a.py"; fr "app" "b.py"] 1 (Some 1%Z) (EStr "pkg.") false
   = Returned RMissing /\
   Module_resolver.resolve_caller_module "caller_resolver"
     [fr "caller_resolver" "r.py"; fr "pkg.a" "a.py"; fr "app" "b.py"] 1 (Some 2%Z) (EStr "pkg.") false
   = Returned (RStr "app")) /\
  (File_resolver.resolve_caller_filename "/lib/caller_resolver.py" ["/x/run.py"]
     [fr "m" "/lib/caller_resolver.py"; fr "m" "/usr/site-packages/a.py"; fr "m" "/home/app/main.py"]
     1 (Some 1%Z) (EStr "site-packages") true false false = Returned RMissing /\
   File_resolver.resolve_caller_filename "/lib/caller_resolver.py" ["/x/run.py"]
     [fr "m" "/lib/caller_resolver.py"; fr "m" "/usr/site-packages/a.py"; fr "m" "/home/app/main.py"]
     1 (Some 2%Z) (EStr "site-packages") true false false = Returned (RStr "main.py")).
Proof.
  split; [exact module_resolve_skipn|].
  split; [exact module_resolve_firstn|].
  split; [exact file_resolve_skipn|].
  split; [exact file_resolve_firstn|].
  split; split; reflexivity.
Qed.

(** C7: [CallerInfoFilter.filter] calls [resolve_caller_filename] with
    [stack_start = 8 + stack_offset], stores its result (a string or
    [MISSING] itself) under [attribute_name], leaves every other attribute
    of the record unchanged, and returns [True]. *)
Theorem C7_filter_enrichment :
  forall (this : string) (argv : list string) (stack : list frame)
         (self : Filters.caller_info_filter) (record : Filters.log_record),
  exists caller record',
    File_resolver.resolve_caller_filename this argv stack (8 + Filters.stack_offset self) None
      (ESet (Filters.exclude_patterns self)) true (Filters.fallback_to_argv self) true
    = Returned caller /\
    Filters.filter this argv stack self record = Filters.FReturn true record' /\
    record' !! Filters.attribute_name self = Some (Filters.obj_of_result caller) /\
    (forall k, k <> Filters.attribute_name self -> record' !! k = record !! k).
Proof.
  intros this argv stack self record.
  destruct (file_resolve_returns this argv stack (8 + Filters.stack_offset self) None
              (ESet (Filters.exclude_patterns self)) true (Filters.fallback_to_argv self) true)
    as [caller Hc].
  exists caller, (<[Filters.attribute_name self := Filters.obj_of_result caller]> record).
  split; [exact Hc|]. split.
  - unfold Filters.filter. rewrite Hc. reflexivity.
  - split.
    + apply lookup_insert_eq.
    + intros k Hk. apply lookup_insert_ne. congruence.
Qed.

Lemma C7_filter_enrichment_witness :
  exists record',
    Filters.filter "/lib/caller_resolver.py" [] []
      {| Filters.attribute_name := "caller"; Filters.exclude_patterns := [];
         Filters.stack_offset := 0; Filters.fallback_to_argv := true |}
      (<["msg" := Filters.PyStrObj "hi"]> ∅) = Filters.FReturn true record' /\
    record' !! "caller" = Some (Filters.PyStrObj "caller_resolver.py") /\
    record' !! "msg" = Some (Filters.PyStrObj "hi").
Proof.
  destruct (C7_filter_enrichment "/lib/caller_resolver.py" [] []
    {| Filters.attribute_name := "caller"; Filters.exclude_patterns := [];
       Filters.stack_offset := 0; Filters.fallback_to_argv := true |}
    (<["msg" := Filters.PyStrObj "hi"]> ∅)) as [caller [record' [Hc [Hf [Ha Ho]]]]].
  vm_compute in Hc. injection Hc as <-.
  exists record'. split; [exact Hf|]. split; [exact Ha|].
  rewrite Ho by discriminate. apply lookup_insert_eq.
Defined.

(** C8: [aaa] and [resolve_caller_module], called with the same stack and
    arguments, accept the same module name, fall back in exactly the same
    cases (each to its own module's [__name__]) and raise in the same cases. *)
Theorem C8_module_resolvers_agree :
  forall (this_primary this_legacy : string) (stack : list frame) (n : Z)
         (maxd : option Z) (excl : excl_arg) (ftc : bool),
  exists o : walk_out,
    Module_resolver.resolve_caller_module this_primary stack n maxd excl ftc =
    conclude_module this_primary ftc o /\
    Bak.aaa this_legacy stack n maxd excl ftc = conclude_module this_legacy ftc o.
Proof.
  intros this1 this2 stack n maxd excl ftc.
  unfold Module_resolver.resolve_caller_module, Bak.aaa.
  destruct (Module_resolver.skip _ _) as [frames|].
  - exists (Module_resolver.walk (Module_resolver.prefix_set_of excl) maxd 0 frames).
    rewrite bak_walk_eq.
    destruct (Module_resolver.walk _ _ _ _); split; reflexivity.
  - exists WDone. split; reflexivity.
Qed.

(** C9: in [resolve_caller_filename] a frame whose path was already seen is
    passed over without any exclusion test but still counts as inspected;
    so duplicates use up [max_stack_depth], and an acceptable frame that
    follows a rejected path and [k] copies of it is missed with
    [max_stack_depth = 1 + k] although it is found with no limit. *)
Theorem C9_seen_frames_consume_depth :
  (forall (ps : list string) (maxd : option Z) (i : Z) (seen : list string)
          (f : frame) (rest : list frame) (p : string),
     co_filename f = Ok p ->
     File_resolver.seen_mem p seen = true ->
     depth_ok maxd i = true ->
     File_resolver.walk ps maxd i seen (f :: rest) = File_resolver.walk ps maxd (i + 1) seen rest) /\
  (forall (this : string) (argv : list string) (stack : list frame) (n : Z)
          (excl : excl_arg) (rb fta ftc : bool)
          (f0 : frame) (dups : list frame) (g : frame) (rest : list frame) (p q : string),
     skipn (Z.to_nat n) stack = f0 :: dups ++ g :: rest ->
     co_filename f0 = Ok p ->
     File_resolver.should_exclude (File_resolver.pattern_set_of this excl) p = true ->
     Forall (fun f => co_filename f = Ok p) dups ->
     co_filename g = Ok q ->
     File_resolver.should_exclude (File_resolver.pattern_set_of this excl) q = false ->
     File_resolver.resolve_caller_filename this argv stack n
       (Some (Z.of_nat (1 + List.length dups))) excl rb fta ftc
     = Returned (File_resolver.fallback this argv rb fta ftc) /\
     File_resolver.resolve_caller_filename this argv stack n None excl rb fta ftc
     = Returned (RStr (File_resolver.fmt rb q))).
Proof.
  split.
  - intros ps maxd i seen f rest p Hf Hs Hd. simpl. rewrite Hd, Hf, Hs. reflexivity.
  - intros this argv stack n excl rb fta ftc f0 dups g rest p q Hs Hf0 Hp Hdups Hg Hq.
    split.
    + rewrite file_resolve_firstn, Nat2Z.id, Hs.
      replace (firstn (1 + List.length dups) (f0 :: dups ++ g :: rest)) with (f0 :: dups)
        by (simpl; rewrite firstn_app, Nat.sub_diag, firstn_all; simpl; rewrite app_nil_r; reflexivity).
      unfold File_resolver.resolve_caller_filename. change (Z.to_nat 0) with O.
      cbn [Module_resolver.skip].
      rewrite file_walk_all_rejected; [reflexivity|].
      constructor; [eauto|]. eapply Forall_impl; [|exact Hdups]. simpl. intros f Hf. exists p. auto.
    + apply file_resolve_found. rewrite Hs.
      change (f0 :: dups ++ g :: rest) with ((f0 :: dups) ++ g :: rest).
      apply file_walk_first with (p :: repeat p (List.length dups)); auto.
      * simpl. rewrite Hf0, (map_repeat_ok dups p Hdups). reflexivity.
      * constructor; [exact Hp|]. apply Forall_forall. intros x Hx.
        apply repeat_spec in Hx. subst x. exact Hp.
Qed.

Lemma C9_seen_frames_consume_depth_witness :
  File_resolver.resolve_caller_filename "/lib/caller_resolver.py" []
    [fr "m" "/lib/caller_resolver.py"; fr "m" "/usr/site-packages/w.py";
     fr "m" "/usr/site-packages/w.py"; fr "m" "/home/app/main.py"]
    1 (Some 2%Z) (EStr "site-packages") true false false = Returned RMissing /\
  File_resolver.resolve_caller_filename "/lib/caller_resolver.py" []
    [fr "m" "/lib/caller_resolver.py"; fr "m" "/usr/site-packages/w.py";
     fr "m" "/usr/site-packages/w.py"; fr "m" "/home/app/main.py"]
    1 None (EStr "site-packages") true false false = Returned (RStr "main.py").
Proof.
  apply ((proj2 C9_seen_frames_consume_depth) "/lib/caller_resolver.py" []
    [fr "m" "/lib/caller_resolver.py"; fr "m" "/usr/site-packages/w.py";
     fr "m" "/usr/site-packages/w.py"; fr "m" "/home/app/main.py"]
    1%Z (EStr "site-packages") true false false
    (fr "m" "/usr/site-packages/w.py") [fr "m" "/usr/site-packages/w.py"]
    (fr "m" "/home/app/main.py") [] "/usr/site-packages/w.py" "/home/app/main.py");
    try reflexivity.
  repeat constructor.
Defined.

(** C10: with [fallback_to_current = True] the file resolver always
    returns a string and every value returned by the module resolver is a
    string; [MISSING] is returned only when [fallback_to_current] is false
    and, for the file resolver, the argv fallback is disabled or [sys.argv]
    is empty.  The logging filter, which keeps [fallback_to_current] at its
    default, always stores a string. *)
Theorem C10_fallback_to_current_never_missing :
  (forall (this : string) (argv : list string) (stack : list frame) (n : Z)
          (maxd : option Z) (excl : excl_arg) (rb fta : bool),
     exists s, File_resolver.resolve_caller_filename this argv stack n maxd excl rb fta true =
               Returned (RStr s)) /\
  (forall (this : string) (stack : list frame) (n : Z) (maxd : option Z)
          (excl : excl_arg) (r : result),
     Module_resolver.resolve_caller_module this stack n maxd excl true = Returned r ->
     exists s, r = RStr s) /\
  (forall (this : string) (argv : list string) (stack : list frame) (n : Z)
          (maxd : option Z) (excl : excl_arg) (rb fta ftc : bool),
     File_resolver.resolve_caller_filename this argv stack n maxd excl rb fta ftc = Returned RMissing ->
     ftc = false /\ (fta = false \/ argv = [])) /\
  (forall (this : string) (stack : list frame) (n : Z) (maxd : option Z)
          (excl : excl_arg) (ftc : bool),
     Module_resolver.resolve_caller_module this stack n maxd excl ftc = Returned RMissing ->
     ftc = false) /\
  (forall (this : string) (argv : list string) (stack : list frame)
          (self : Filters.caller_info_filter) (record record' : Filters.log_record) (b : bool),
     Filters.filter this argv stack self record = Filters.FReturn b record' ->
     exists s, record' !! Filters.attribute_name self = Some (Filters.PyStrObj s)).
Proof.
  assert (Hfile : forall this argv stack n maxd excl rb fta,
     exists s, File_resolver.resolve_caller_filename this argv stack n maxd excl rb fta true =
               Returned (RStr s)).
  { intros this argv stack n maxd excl rb fta.
    destruct (file_resolve_cases this argv stack n maxd excl rb fta true) as [[p H]|H];
      rewrite H; [eauto|].
    unfold File_resolver.fallback. destruct fta, argv; eauto. }
  split; [exact Hfile|]. split; [|split; [|split]].
  - intros this stack n maxd excl r H.
    destruct (module_resolve_cases this stack n maxd excl true) as [[s Hs]|[Hs|Hs]];
      rewrite Hs in H; try discriminate; injection H as <-; eauto.
  - intros this argv stack n maxd excl rb fta ftc H.
    destruct (file_resolve_cases this argv stack n maxd excl rb fta ftc) as [[p Hp]|Hp];
      rewrite Hp in H; [discriminate|].
    injection H as H. unfold File_resolver.fallback in H.
    destruct fta, argv, ftc; try discriminate; auto.
  - intros this stack n maxd excl ftc H.
    destruct (module_resolve_cases this stack n maxd excl ftc) as [[s Hs]|[Hs|Hs]];
      rewrite Hs in H; try discriminate.
    injection H as H. unfold Module_resolver.fallback in H. destruct ftc; congruence.
  - intros this argv stack self record record' b H.
    unfold Filters.filter in H.
    destruct (Hfile this argv stack (8 + Filters.stack_offset self)%Z None
                (ESet (Filters.exclude_patterns self)) true (Filters.fallback_to_argv self))
      as [s Hs].
    rewrite Hs in H. injection H as _ <-. exists s. apply lookup_insert_eq.
Qed.

Lemma C10_fallback_to_current_never_missing_witness :
  File_resolver.resolve_caller_filename "/lib/caller_resolver.py" ["/x/run.py"]
    [] 1 None ENone true false false = Returned RMissing /\
  (false = false /\ (false = false \/ ["/x/run.py"] = [])).
Proof.
  split; [reflexivity|].
  apply ((proj1 (proj2 (proj2 C10_fallback_to_current_never_missing)))
           "/lib/caller_resolver.py" ["/x/run.py"] [] 1%Z None ENone true false false).
  reflexivity.
Defined.

(** * Further properties of the code *)

Ltac split_level_cmp :=
  repeat match goal with
  | |- context [Z.leb ?a ?b] => destruct (Z.leb_spec a b)
  | |- context [Z.ltb ?a ?b] => destruct (Z.ltb_spec a b)
  end.

(** [LevelRangeFilter.filter] lets a level through exactly when it lies
    above the lower bound (or on it, when [min_inclusive]) and below the
    upper bound (or on it, when [max_inclusive]); an open bound ([None])
    lets everything through on its side. *)
Theorem level_filter_accepts_iff :
  forall (A : Type) (convert : A -> option Z) (name : string) (lo hi : option A)
         (mi ma : bool) (self : Level_filter.level_range_filter) (levelno : Z),
  Level_filter.init A convert name lo hi mi ma = Some self ->
  (Level_filter.filter self levelno = true <->
   (match Level_filter.min_level self with
    | Level_filter.NegInf => True
    | Level_filter.Fin a => (a < levelno)%Z \/ (mi = true /\ a = levelno)
    | Level_filter.PosInf => False
    end) /\
   (match Level_filter.max_level self with
    | Level_filter.NegInf => False
    | Level_filter.Fin b => (levelno < b)%Z \/ (ma = true /\ levelno = b)
    | Level_filter.PosInf => True
    end)).
Proof.
  intros A convert name lo hi mi ma self lv H. unfold Level_filter.init in H.
  destruct (Level_filter.resolve_bound A convert lo Level_filter.NegInf) as [b1|] eqn:E1;
    [|discriminate].
  destruct (Level_filter.resolve_bound A convert hi Level_filter.PosInf) as [b2|] eqn:E2;
    [|discriminate].
  injection H as <-. unfold Level_filter.filter. cbn.
  assert (Hb1 : b1 <> Level_filter.PosInf).
  { destruct lo; simpl in E1; [destruct (convert a)|]; simpl in E1; congruence. }
  assert (Hb2 : b2 <> Level_filter.NegInf).
  { destruct hi; simpl in E2; [destruct (convert a)|]; simpl in E2; congruence. }
  destruct b1 as [|x|], b2 as [|y|], mi, ma; try congruence; cbn;
    split_level_cmp; cbn; split; intuition (try lia; try discriminate).
Qed.

Lemma level_filter_accepts_iff_witness :
  Level_filter.init Z Some "" (Some 20%Z) (Some 30%Z) true false =
    Some (Level_filter.Build_level_range_filter "" (Level_filter.Fin 20) (Level_filter.Fin 30)
            (Level_filter.bound_le (Level_filter.Fin 20))
            (Level_filter.bound_gt (Level_filter.Fin 30))) /\
  (Level_filter.filter (Level_filter.Build_level_range_filter "" (Level_filter.Fin 20)
     (Level_filter.Fin 30) (Level_filter.bound_le (Level_filter.Fin 20))
     (Level_filter.bound_gt (Level_filter.Fin 30))) 20 = true <->
   ((20 < 20)%Z \/ (true = true /\ 20%Z = 20%Z)) /\ ((20 < 30)%Z \/ (false = true /\ 20%Z = 30%Z))).
Proof.
  split; [reflexivity|].
  apply (level_filter_accepts_iff Z Some "" (Some 20%Z) (Some 30%Z) true false). reflexivity.
Defined.



(** Inverted bounds: when the lower bound exceeds the upper one the filter
    rejects every record. *)
Theorem level_filter_inverted_bounds :
  forall (A : Type) (convert : A -> option Z) (name : string) (l1 l2 : A) (a b : Z) (mi ma : bool),
  convert l1 = Some a -> convert l2 = Some b -> (b < a)%Z ->
  exists self, Level_filter.init A convert name (Some l1) (Some l2) mi ma = Some self /\
    forall levelno, Level_filter.filter self levelno = false.
Proof.
  intros A convert name l1 l2 a b mi ma H1 H2 Hlt.
  unfold Level_filter.init, Level_filter.resolve_bound. rewrite H1, H2. cbn.
  eexists; split; [reflexivity|]. intros lv.
  unfold Level_filter.filter. cbn. destruct (Z.ltb_spec b a); [reflexivity|lia].
Qed.

Lemma level_filter_inverted_bounds_witness :
  exists self, Level_filter.init Z Some "" (Some 40%Z) (Some 10%Z) true true = Some self /\
    forall levelno, Level_filter.filter self levelno = false.
Proof.
  apply (level_filter_inverted_bounds Z Some "" 40%Z 10%Z 40%Z 10%Z true true);
    reflexivity.
Defined.

(** Open bounds on both sides: whatever the inclusivity flags, every
    record passes. *)
Theorem level_filter_open_bounds :
  forall (A : Type) (convert : A -> option Z) (name : string) (mi ma : bool),
  exists self, Level_filter.init A convert name None None mi ma = Some self /\
    forall levelno, Level_filter.filter self levelno = true.
Proof.
  intros A convert name mi ma. eexists; split; [reflexivity|].
  intros lv. unfold Level_filter.filter. destruct mi, ma; reflexivity.
Qed.



(** [bbb] captures the whole stack before slicing it: a frame whose path
    cannot be read sends it to the fallbacks even when that frame lies
    inside the skipped prefix. *)
Theorem bbb_fault_anywhere :
  forall (this : string) (argv : list string) (stack : list frame) (n : Z)
         (e : option (list string)) (fta ftc : bool) (f : frame),
  In f stack -> co_filename f = Fault ->
  Bak_file.bbb this argv stack n e fta ftc = Returned (Bak_file.fallback this argv fta ftc).
Proof.
  intros this argv stack n e fta ftc f Hin Hf.
  unfold Bak_file.bbb. rewrite (inspect_stack_fault stack f Hin Hf). reflexivity.
Qed.

Lemma bbb_fault_anywhere_witness :
  Bak_file.bbb "/lib/bak.py" ["/x/run.py"]
    [mk_frame (Ok (Some "m")) Fault; fr "m" "/home/app/main.py"] 1 None true true
  = Returned (Bak_file.fallback "/lib/bak.py" ["/x/run.py"] true true) /\
  File_resolver.resolve_caller_filename "/lib/bak.py" ["/x/run.py"]
    [mk_frame (Ok (Some "m")) Fault; fr "m" "/home/app/main.py"] 1 None ENone true true true
  = Returned (RStr "main.py").
Proof.
  split; [|reflexivity].
  apply (bbb_fault_anywhere "/lib/bak.py" ["/x/run.py"]
    [mk_frame (Ok (Some "m")) Fault; fr "m" "/home/app/main.py"] 1 None true true
    (mk_frame (Ok (Some "m")) Fault)); [left; reflexivity|reflexivity].
Defined.

(** A negative [stack_start] is a Python slice index in [bbb]: it keeps
    only the last [-stack_start] (outermost) frames. *)
Theorem bbb_negative_stack_start :
  forall (this : string) (argv : list string) (stack : list frame) (n : Z)
         (e : option (list string)) (fta ftc : bool),
  (n < 0)%Z ->
  Bak_file.bbb this argv stack n e fta ftc =
  Bak_file.bbb this argv stack (Z.max 0 (Z.of_nat (List.length stack) + n)) e fta ftc.
Proof.
  intros this argv stack n e fta ftc Hn. unfold Bak_file.bbb.
  destruct (Bak_file.inspect_stack stack) as [paths|] eqn:Hs; [|reflexivity].
  assert (Hl : List.length paths = List.length stack).
  { rewrite <- (length_map Ok paths), <- (inspect_stack_some _ _ Hs), length_map.
    reflexivity. }
  unfold Bak_file.py_slice_from.
  destruct (Z.leb_spec 0 n); [lia|].
  destruct (Z.leb_spec 0 (Z.max 0 (Z.of_nat (List.length stack) + n))); [|lia].
  rewrite Hl.
  replace (Z.to_nat (Z.max 0 (Z.of_nat (List.length stack) + n)))
    with (Z.to_nat (Z.of_nat (List.length stack) + n)) by lia.
  reflexivity.
Qed.

Lemma bbb_negative_stack_start_witness :
  Bak_file.bbb "/lib/bak.py" [] [fr "m" "/home/a.py"; fr "m" "/home/b.py"] (-1) None false false =
  Bak_file.bbb "/lib/bak.py" [] [fr "m" "/home/a.py"; fr "m" "/home/b.py"] 1 None false false /\
  Bak_file.bbb "/lib/bak.py" [] [fr "m" "/home/a.py"; fr "m" "/home/b.py"] (-1) None false false =
  Returned (RStr "b.py").
Proof.
  split; [|reflexivity].
  apply (bbb_negative_stack_start "/lib/bak.py" [] [fr "m" "/home/a.py"; fr "m" "/home/b.py"]
           (-1) None false false). lia.
Defined.

(** Whatever string [resolve_caller_filename] returns is either its
    fallback value or (the base name of) the path of a post-skip frame
    within the depth limit that matches no pattern and no environment
    marker. *)
Theorem resolve_caller_filename_sound :
  forall (this : string) (argv : list string) (stack : list frame) (n : Z)
         (maxd : option Z) (excl : excl_arg) (rb fta ftc : bool) (s : string),
  File_resolver.resolve_caller_filename this argv stack n maxd excl rb fta ftc = Returned (RStr s) ->
  RStr s = File_resolver.fallback this argv rb fta ftc \/
  exists p,
    In (Ok p) (map co_filename
                 (match maxd with
                  | Some d => firstn (Z.to_nat d) (skipn (Z.to_nat n) stack)
                  | None => skipn (Z.to_nat n) stack
                  end)) /\
    File_resolver.should_exclude (File_resolver.pattern_set_of this excl) p = false /\
    s = File_resolver.fmt rb p.
Proof.
  intros this argv stack n maxd excl rb fta ftc s H.
  assert (Hw : forall fs, File_resolver.resolve_caller_filename this argv fs 0 maxd excl rb fta ftc =
    match File_resolver.walk (File_resolver.pattern_set_of this excl) maxd 0 [] fs with
    | WFound p => Returned (RStr (File_resolver.fmt rb p))
    | _ => Returned (File_resolver.fallback this argv rb fta ftc)
    end).
  { intros fs. unfold File_resolver.resolve_caller_filename. change (Z.to_nat 0) with O.
    cbn [Module_resolver.skip]. destruct (File_resolver.walk _ _ _ _ _); reflexivity. }
  destruct maxd as [d|].
  - rewrite file_resolve_firstn, Hw in H.
    destruct (File_resolver.walk _ _ _ _ _) as [p| |] eqn:E; injection H as H; auto.
    right. destruct (file_walk_found _ _ _ _ _ _ E). exists p. subst s. auto.
  - rewrite file_resolve_skipn, Hw in H.
    destruct (File_resolver.walk _ _ _ _ _) as [p| |] eqn:E; injection H as H; auto.
    right. destruct (file_walk_found _ _ _ _ _ _ E). exists p. subst s. auto.
Qed.

Lemma resolve_caller_filename_sound_witness :
  RStr "main.py" = File_resolver.fallback "/lib/r.py" [] true false false \/
  exists p,
    In (Ok p) (map co_filename (skipn (Z.to_nat 1) [fr "m" "/lib/r.py"; fr "m" "/home/main.py"])) /\
    File_resolver.should_exclude (File_resolver.pattern_set_of "/lib/r.py" ENone) p = false /\
    "main.py" = File_resolver.fmt true p.
Proof.
  apply (resolve_caller_filename_sound "/lib/r.py" [] [fr "m" "/lib/r.py"; fr "m" "/home/main.py"]
           1 None ENone true false false "main.py").
  reflexivity.
Defined.

(** A [CallerInfoFilter] built without [override_exclude_patterns] stores,
    unless it is the fallback value, the base name of a post-skip frame
    path containing none of the seven built-in patterns, none of the extra
    [exclude_patterns], and none of the environment markers. *)
Theorem caller_filter_default_patterns_respected :
  forall (attr : string) (e : option (list string)) (off : Z) (fta : bool)
         (this : string) (argv : list string) (stack : list frame)
         (record record' : Filters.log_record) (s : string),
  Filters.filter this argv stack (Filter_init.init attr e None off fta) record =
    Filters.FReturn true record' ->
  record' !! attr = Some (Filters.PyStrObj s) ->
  RStr s = File_resolver.fallback this argv true fta true \/
  exists p,
    In (Ok p) (map co_filename (skipn (Z.to_nat (8 + off)) stack)) /\
    s = path_name p /\
    Forall (fun pat => str_contains pat p = false)
      (Filter_init.default_exclude_patterns ++ match e with Some e => e | None => [] end) /\
    Forall (fun v => str_contains v (str_lower p) = false) ["venv"; ".venv"; "virtualenv"].
Proof.
  intros attr e off fta this argv stack record record' s Hf Hs.
  unfold Filters.filter in Hf. rewrite init_patterns_no_override in Hf.
  cbn [Filter_init.init Filters.attribute_name
    Filters.stack_offset Filters.fallback_to_argv] in Hf.
  destruct (File_resolver.resolve_caller_filename _ _ _ _ _ _ _ _ _) as [r|] eqn:Hr;
    [|discriminate].
  injection Hf as <-. rewrite lookup_insert_eq in Hs. injection Hs as Hs.
  destruct r as [s'|]; [|discriminate]. injection Hs as <-.
  destruct (resolve_caller_filename_sound _ _ _ _ _ _ _ _ _ _ Hr) as [H|[p [Hin [Hx Hp]]]];
    [left; exact H|right].
  exists p. split; [exact Hin|]. split; [exact Hp|].
  rewrite should_exclude_or in Hx. apply orb_false_iff in Hx as [Hx1 Hx2].
  split; apply Forall_forall; intros q Hq.
  - apply not_true_iff_false. intros Hc. rewrite <- not_true_iff_false in Hx1. apply Hx1.
    apply existsb_exists. exists q. split; [exact Hq|exact Hc].
  - apply not_true_iff_false. intros Hc. rewrite <- not_true_iff_false in Hx2. apply Hx2.
    apply existsb_exists. exists q. auto.
Qed.

Lemma caller_filter_default_patterns_respected_witness :
  RStr "main.py" = File_resolver.fallback "/lib/r.py" [] true true true \/
  exists p,
    In (Ok p) (map co_filename (skipn (Z.to_nat (8 + 0)) (repeat (fr "m" "/lib/r.py") 8 ++ [fr "m" "/home/main.py"]))) /\
    "main.py" = path_name p /\
    Forall (fun pat => str_contains pat p = false)
      (Filter_init.default_exclude_patterns ++ ["test_"]) /\
    Forall (fun v => str_contains v (str_lower p) = false) ["venv"; ".venv"; "virtualenv"].
Proof.
  apply (caller_filter_default_patterns_respected "caller" (Some ["test_"]) 0 true "/lib/r.py" []
    (repeat (fr "m" "/lib/r.py") 8 ++ [fr "m" "/home/main.py"]) ∅
    (<["caller" := Filters.PyStrObj "main.py"]> ∅) "main.py"); reflexivity.
Defined.

(** ** The matcher, the interpreter choice and the activation *)
Module Venv_facts.
Import Py_re Venv.

Lemma str_app_cons (x : ascii) (a b : string) : (String x a ++ b)%string = String x (a ++ b).
Proof. reflexivity. Qed.

Lemma str_app_empty (b : string) : ("" ++ b)%string = b.
Proof. reflexivity. Qed.

Lemma str_app_nil (s : string) : (s ++ "")%string = s.
Proof. induction s as [|c s IH]; [reflexivity|rewrite str_app_cons, IH; reflexivity]. Qed.

Lemma str_app_assoc (a b c : string) : (a ++ (b ++ c))%string = ((a ++ b) ++ c)%string.
Proof. induction a as [|x a IH]; [reflexivity|rewrite !str_app_cons, IH; reflexivity]. Qed.

Lemma str_length_app (a b : string) :
  String.length (a ++ b)%string = (String.length a + String.length b)%nat.
Proof. induction a as [|x a IH]; [reflexivity|rewrite str_app_cons; simpl; rewrite IH; reflexivity]. Qed.

Lemma substring_prefix (u v : string) :
  substring 0 (String.length (u ++ v)%string - String.length v) (u ++ v)%string = u.
Proof.
  rewrite str_length_app, Nat.add_sub.
  induction u as [|c u IH]; [destruct v; reflexivity|].
  rewrite str_app_cons. simpl. rewrite IH. reflexivity.
Qed.

Lemma m_seq {A : Type} (i : bool) (r1 r2 : regex) (s : string) (c : captures)
    (k : string -> captures -> option A) :
  m i (RSeq r1 r2) s c k = m i r1 s c (fun s' c' => m i r2 s' c' k).
Proof. reflexivity. Qed.

Lemma m_lit_ok {A : Type} (i : bool) (lit s s' : string) (c : captures)
    (k : string -> captures -> option A) :
  lit_match i lit s = Some s' -> m i (RLit lit) s c k = k s' c.
Proof. intros H. simpl. rewrite H. reflexivity. Qed.

Lemma m_lit_fail {A : Type} (i : bool) (lit s : string) (c : captures)
    (k : string -> captures -> option A) :
  lit_match i lit s = None -> m i (RLit lit) s c k = None.
Proof. intros H. simpl. rewrite H. reflexivity. Qed.

Lemma m_opt_some {A : Type} (i : bool) (r : regex) (s : string) (c : captures)
    (k : string -> captures -> option A) (x : A) :
  m i r s c k = Some x -> m i (ROpt r) s c k = Some x.
Proof. intros H. simpl. rewrite H. reflexivity. Qed.

Lemma m_opt_none {A : Type} (i : bool) (r : regex) (s : string) (c : captures)
    (k : string -> captures -> option A) :
  m i r s c k = None -> m i (ROpt r) s c k = k s c.
Proof. intros H. simpl. rewrite H. reflexivity. Qed.

Lemma m_alt_some {A : Type} (i : bool) (r1 r2 : regex) (s : string) (c : captures)
    (k : string -> captures -> option A) (x : A) :
  m i r1 s c k = Some x -> m i (RAlt r1 r2) s c k = Some x.
Proof. intros H. simpl. rewrite H. reflexivity. Qed.

Lemma class_run_app (cls : ascii -> bool) (run rest : string) :
  all_chars cls run = true -> class_run cls rest = O ->
  class_run cls (run ++ rest)%string = String.length run.
Proof.
  induction run as [|x run IH]; intros H1 H2; [exact H2|].
  rewrite str_app_cons. simpl in *.
  apply andb_prop in H1 as [Hx Hr]. rewrite Hx, (IH Hr H2). reflexivity.
Qed.

Lemma str_drop_app (run rest : string) : str_drop (String.length run) (run ++ rest)%string = rest.
Proof. induction run as [|x run IH]; [reflexivity|rewrite str_app_cons; exact IH]. Qed.

(** A class repetition over a maximal run of the class tries the whole run
    first. *)
Lemma m_class_ok {A : Type} (i : bool) (cls : ascii -> bool) (min : nat)
    (s run rest : string) (c : captures) (k : string -> captures -> option A) (x : A) :
  s = (run ++ rest)%string -> all_chars cls run = true -> class_run cls rest = O ->
  (min <= String.length run)%nat -> k rest c = Some x ->
  m i (RClass cls min) s c k = Some x.
Proof.
  intros -> Hr Hrest Hmin Hk. simpl. rewrite (class_run_app cls run rest Hr Hrest).
  destruct (String.length run) as [|n] eqn:E; cbn [try_counts];
    rewrite (proj2 (Nat.ltb_ge _ _) Hmin), <- E, str_drop_app, Hk; reflexivity.
Qed.

Lemma m_group_class {A : Type} (i : bool) (name : string) (cls : ascii -> bool) (min : nat)
    (s run rest : string) (c : captures) (k : string -> captures -> option A) (x : A) :
  s = (run ++ rest)%string -> all_chars cls run = true -> class_run cls rest = O ->
  (min <= String.length run)%nat -> k rest ((name, run) :: c) = Some x ->
  m i (RGroup name (RClass cls min)) s c k = Some x.
Proof.
  intros Hs Hr Hrest Hmin Hk. cbn [m].
  apply (m_class_ok i cls min s run rest); auto. cbv beta.
  rewrite Hs, substring_prefix. exact Hk.
Qed.

Lemma m_class_short {A : Type} (i : bool) (cls : ascii -> bool) (min : nat)
    (s : string) (c : captures) (k : string -> captures -> option A) :
  (class_run cls s < min)%nat -> m i (RClass cls min) s c k = None.
Proof.
  intros H. simpl. destruct (class_run cls s) as [|n]; cbn [try_counts];
    rewrite (proj2 (Nat.ltb_lt _ _) H); reflexivity.
Qed.

Lemma is_digit_not_space (x : ascii) : is_digit x = true -> is_space x = false.
Proof.
  unfold is_digit, is_space. set (n := nat_of_ascii x). intros H.
  apply andb_prop in H as [H1 H2]. apply Nat.leb_le in H1, H2.
  destruct (Nat.eqb_spec n 32); [lia|].
  destruct (Nat.leb_spec 9 n), (Nat.leb_spec n 13), (Nat.leb_spec 28 n), (Nat.leb_spec n 31);
    simpl; try reflexivity; lia.
Qed.

Lemma class_run_digits_space (a rest : string) :
  a <> "" -> all_chars is_digit a = true -> class_run is_space (a ++ rest)%string = O.
Proof.
  intros Ha Hd. destruct a as [|x a]; [congruence|]. rewrite str_app_cons. simpl in *.
  apply andb_prop in Hd as [Hx _]. rewrite (is_digit_not_space x Hx). reflexivity.
Qed.

Lemma digits_length (a : string) : a <> "" -> (1 <= String.length a)%nat.
Proof. destruct a; simpl; [congruence|lia]. Qed.

Lemma lit_match_ci (lit u rest : string) :
  str_lower u = str_lower lit -> lit_match true lit (u ++ rest)%string = Some rest.
Proof.
  revert u. induction lit as [|c lit IH]; intros [|d u] H; try discriminate.
  - reflexivity.
  - rewrite str_app_cons. simpl in *. injection H as Hc Hs. unfold char_eq. rewrite Hc, Ascii.eqb_refl. apply IH. exact Hs.
Qed.

Lemma lit_match_ci_prefix (lit s s' : string) :
  lit_match true lit s = Some s' -> startswith (str_lower s) (str_lower lit) = true.
Proof.
  revert s. induction lit as [|c lit IH]; intros [|d s] H;
    cbn [startswith str_lower lit_match] in *; try discriminate.
  - reflexivity.
  - reflexivity.
  - unfold char_eq in H. destruct (Ascii.eqb (ascii_lower c) (ascii_lower d)) eqn:E;
      [|discriminate].
    exact (IH s H).
Qed.

(** The end of a [version_pattern] match: no patch part, then [$]. *)
Lemma version_tail (c : captures) :
  m true (RSeq (ROpt (RSeq (RLit ".") (RClass is_digit 1))) REnd) "" c
    (fun _ caps => Some caps) = Some c.
Proof. reflexivity. Qed.

(** After ["python"] and a run of spaces, the match continues on the
    digits. *)
Lemma version_prefix (w rest : string) (x : captures) :
  all_chars is_space w = true -> class_run is_space rest = O ->
  m true (RSeq (ROpt (RSeq (RGroup "major" (RClass is_digit 1))
                    (ROpt (RSeq (RLit ".") (RGroup "minor" (RClass is_digit 1))))))
         (RSeq (ROpt (RSeq (RLit ".") (RClass is_digit 1))) REnd)) rest []
    (fun _ caps => Some caps) = Some x ->
  re_match true version_pattern ("python" ++ w ++ rest)%string = Some x.
Proof.
  intros Hw Hr H. unfold re_match, version_pattern. rewrite m_seq.
  rewrite (m_lit_ok _ _ _ (w ++ rest)%string) by reflexivity. cbv beta.
  rewrite m_seq. apply m_opt_some, m_alt_some.
  apply (m_class_ok _ _ _ _ w rest); [reflexivity|exact Hw|exact Hr|lia|exact H].
Qed.

Lemma parse_of_match (p : string) (x : captures) :
  re_match true version_pattern (path_name p) = Some x ->
  parse_python_version p =
  match group "major" x with
  | Some mj =>
      if str_truthy mj then
        (py_int mj, match group "minor" x with Some mn => py_int mn | None => (-1)%Z end)
      else ((-1)%Z, (-1)%Z)
  | None => ((-1)%Z, (-1)%Z)
  end.
Proof. intros H. unfold parse_python_version. rewrite H. reflexivity. Qed.

(** Facts about the stable sort. *)

Lemma key_lt_iff (a b : Z * Z) :
  key_lt a b = true <-> (fst a < fst b \/ fst a = fst b /\ snd a < snd b)%Z.
Proof.
  unfold key_lt. rewrite orb_true_iff, andb_true_iff, Z.ltb_lt, Z.eqb_eq, Z.ltb_lt.
  reflexivity.
Qed.

Lemma key_lt_false (a b : Z * Z) :
  key_lt a b = false <-> ~ (fst a < fst b \/ fst a = fst b /\ snd a < snd b)%Z.
Proof. rewrite <- key_lt_iff. symmetry. apply not_true_iff_false. Qed.

Lemma key_lt_irrefl (a : Z * Z) : key_lt a a = false.
Proof. apply key_lt_false. lia. Qed.

Lemma key_lt_asym (a b : Z * Z) : key_lt a b = true -> key_lt b a = false.
Proof. rewrite key_lt_iff, key_lt_false. lia. Qed.

Lemma key_le_trans (x y z : Z * Z) :
  key_lt x y = false -> key_lt y z = false -> key_lt x z = false.
Proof. rewrite !key_lt_false. lia. Qed.

Section Sort.
Context {A : Type} (key : A -> Z * Z).

Lemma insert_in (x y : A) (l : list A) : In y (insert_stable key x l) <-> x = y \/ In y l.
Proof.
  induction l as [|z l IH]; simpl; [tauto|].
  destruct (key_lt (key x) (key z)); simpl; [tauto|]. rewrite IH. tauto.
Qed.

Lemma sort_app (l : list A) (x : A) :
  sort_stable key (l ++ [x]) = insert_stable key x (sort_stable key l).
Proof. unfold sort_stable. rewrite fold_left_app. reflexivity. Qed.

Lemma sort_in (l : list A) (y : A) : In y (sort_stable key l) <-> In y l.
Proof.
  induction l as [|x l IH] using rev_ind; [reflexivity|].
  rewrite sort_app, insert_in, IH, in_app_iff. simpl. tauto.
Qed.

Lemma insert_end (x : A) (l : list A) :
  Forall (fun y => key_lt (key x) (key y) = false) l -> insert_stable key x l = l ++ [x].
Proof.
  induction l as [|z l IH]; intros H; [reflexivity|].
  inversion H as [|? ? Hz Hl]; subst. simpl. rewrite Hz, (IH Hl). reflexivity.
Qed.

Lemma insert_before_last (x z : A) (l : list A) :
  key_lt (key x) (key z) = true -> exists l', insert_stable key x (l ++ [z]) = l' ++ [z].
Proof.
  intros Hxz. induction l as [|y l IH]; simpl.
  - rewrite Hxz. exists [x]. reflexivity.
  - destruct (key_lt (key x) (key y)).
    + exists (x :: y :: l). reflexivity.
    + destruct IH as [l' E]. rewrite E. exists (y :: l'). reflexivity.
Qed.

(** The last element of the stable ascending sort is the last element of
    the input among those with the greatest key. *)
Lemma sort_last (l : list A) :
  l <> [] ->
  exists l1 z l2 s',
    l = l1 ++ z :: l2 /\ sort_stable key l = s' ++ [z] /\
    Forall (fun y => key_lt (key z) (key y) = false) l1 /\
    Forall (fun y => key_lt (key y) (key z) = true) l2 /\
    (forall y, In y l -> key_lt (key z) (key y) = false).
Proof.
  induction l as [|x l IH] using rev_ind; [congruence|intros _].
  destruct l as [|a l0] eqn:El.
  - exists [], x, [], []. split; [reflexivity|]. split; [reflexivity|].
    split; [constructor|]. split; [constructor|].
    intros y [<-|[]]. apply key_lt_irrefl.
  - rewrite <- El in *. destruct IH as (l1 & z & l2 & s' & E & Es & H1 & H2 & Hall);
      [rewrite El; discriminate|].
    rewrite sort_app, Es.
    destruct (key_lt (key x) (key z)) eqn:Hxz.
    + destruct (insert_before_last x z s' Hxz) as [s'' Es'].
      exists l1, z, (l2 ++ [x]), s''. rewrite E, <- app_assoc. split; [reflexivity|].
      split; [exact Es'|]. split; [exact H1|].
      split; [apply Forall_app; split; [exact H2|constructor; [exact Hxz|constructor]]|].
      intros y Hy. assert (Hy' : In y (l ++ [x])) by (rewrite E, <- app_assoc; exact Hy).
      apply in_app_iff in Hy' as [Hy'|[<-|[]]]; [exact (Hall y Hy')|apply key_lt_asym; exact Hxz].
    + assert (Hle : forall y, In y l -> key_lt (key x) (key y) = false)
        by (intros y Hy; exact (key_le_trans _ _ _ Hxz (Hall y Hy))).
      exists l, x, [], (s' ++ [z]). split; [reflexivity|].
      split.
      { apply insert_end. apply Forall_forall. intros y Hy. apply Hle.
        apply (sort_in l y). rewrite Es. exact Hy. }
      split; [apply Forall_forall; exact Hle|]. split; [constructor|].
      intros y Hy. apply in_app_iff in Hy as [Hy|[<-|[]]]; [exact (Hle y Hy)|apply key_lt_irrefl].
Qed.

End Sort.

(** [python_version_str] is spliced into the environment only through
    the join of [PATH]; splitting and joining on the separator is the
    identity. *)
Lemma py_split_nonempty (sep : ascii) (acc s : string) : py_split sep acc s <> [].
Proof.
  revert acc. induction s as [|c s IH]; intros acc; simpl; [discriminate|].
  destruct (Ascii.eqb c sep); [discriminate|apply IH].
Qed.

Lemma py_join_split (sep : ascii) (acc s : string) :
  py_join sep (py_split sep acc s) = (acc ++ s)%string.
Proof.
  revert acc. induction s as [|c s IH]; intros acc; simpl.
  - rewrite str_app_nil. reflexivity.
  - destruct (Ascii.eqb c sep) eqn:E.
    + apply Ascii.eqb_eq in E as ->.
      pose proof (py_split_nonempty sep "" s) as Hne.
      destruct (py_split sep "" s) as [|x xs] eqn:Es; [congruence|].
      change (py_join sep (acc :: x :: xs)) with (acc ++ String sep (py_join sep (x :: xs)))%string.
      rewrite <- Es, IH. reflexivity.
    + rewrite IH, <- str_app_assoc. reflexivity.
Qed.

Lemma py_join_prepend (sep : ascii) (x s : string) :
  py_join sep (x :: py_split sep "" s) = (x ++ String sep s)%string.
Proof.
  pose proof (py_split_nonempty sep "" s) as Hne.
  destruct (py_split sep "" s) as [|y ys] eqn:Es; [congruence|].
  change (py_join sep (x :: y :: ys)) with (x ++ String sep (py_join sep (y :: ys)))%string.
  rewrite <- Es, py_join_split. reflexivity.
Qed.

(** The environment [activate_manually] builds once its four paths are
    valid. *)
Definition manual_env (w : world) (venv_path venv_bin_path : string) (st : py_state)
    : gmap string string :=
  <["VIRTUAL_ENV_PROMPT" := VENV_PROMPT]>
    (<["VIRTUAL_ENV" := venv_path]>
       (<["PATH" := (venv_bin_path ++ String (pathsep w)
                       (match environ st !! "PATH" with Some v => v | None => "" end))%string]>
          (environ st))).

Lemma activate_manually_invalid (w : world) (venv bin lib py : string) (st : py_state) :
  forallb (fun '(p, t) => validate_path_exists_and_type w p t)
    [(venv, "dir"); (bin, "dir"); (lib, "dir"); (py, "file")] = false ->
  activate_manually w venv bin lib py st = (false, st).
Proof. intros H. unfold activate_manually. rewrite H. reflexivity. Qed.

Lemma activate_manually_cases (w : world) (venv bin lib py : string) (st : py_state) :
  validate_path_exists_and_type w venv "dir" = true ->
  validate_path_exists_and_type w bin "dir" = true ->
  validate_path_exists_and_type w lib "dir" = true ->
  validate_path_exists_and_type w py "file" = true ->
  activate_manually w venv bin lib py st =
    (false, mk_state (manual_env w venv bin st) (sys_path st) (sys_prefix st)
                     (sys_base_prefix st) (sys_real_prefix st)) \/
  exists site,
    activate_manually w venv bin lib py st =
    (true, mk_state (manual_env w venv bin st)
             (skipn (List.length (sys_path st)) (addsitedir w site (sys_path st)) ++
              firstn (List.length (sys_path st)) (addsitedir w site (sys_path st)))
             venv (sys_base_prefix st) (Some (sys_prefix st))).
Proof.
  intros H1 H2 H3 H4. unfold activate_manually. cbn [forallb].
  rewrite H1, H2, H3, H4. cbn [andb negb]. cbv zeta.
  rewrite py_join_prepend.
  change (if str_truthy VENV_PROMPT then VENV_PROMPT else path_name venv) with VENV_PROMPT.
  fold (manual_env w venv bin st).
  destruct (get_python_version_str w py) as [v|]; [|left; reflexivity].
  destruct (str_truthy v); cbn [negb]; [|left; reflexivity].
  destruct (get_site_packages_path w lib v) as [site|]; [|left; reflexivity].
  destruct (validate_path_exists_and_type w site "dir"); cbn [negb];
    [right; exists site; reflexivity|left; reflexivity].
Qed.

Lemma activate_manually_success_valid (w : world) (venv bin lib py : string)
    (st st' : py_state) :
  activate_manually w venv bin lib py st = (true, st') ->
  validate_path_exists_and_type w venv "dir" = true /\
  validate_path_exists_and_type w bin "dir" = true /\
  validate_path_exists_and_type w lib "dir" = true /\
  validate_path_exists_and_type w py "file" = true.
Proof.
  intros H.
  destruct (forallb (fun '(p, t) => validate_path_exists_and_type w p t)
    [(venv, "dir"); (bin, "dir"); (lib, "dir"); (py, "file")]) eqn:E.
  - cbn [forallb] in E. rewrite !andb_true_iff in E. tauto.
  - rewrite (activate_manually_invalid w venv bin lib py st E) in H. discriminate.
Qed.

Lemma activate_manually_success (w : world) (venv bin lib py : string) (st st' : py_state) :
  activate_manually w venv bin lib py st = (true, st') ->
  exists site,
    st' = mk_state (manual_env w venv bin st)
             (skipn (List.length (sys_path st)) (addsitedir w site (sys_path st)) ++
              firstn (List.length (sys_path st)) (addsitedir w site (sys_path st)))
             venv (sys_base_prefix st) (Some (sys_prefix st)).
Proof.
  intros H. destruct (activate_manually_success_valid _ _ _ _ _ _ _ H) as (H1 & H2 & H3 & H4).
  destruct (activate_manually_cases w venv bin lib py st H1 H2 H3 H4) as [E|[site E]];
    rewrite E in H; injection H as ?; [discriminate|]. exists site. congruence.
Qed.

Lemma m_group {A : Type} (i : bool) (name : string) (r : regex) (s : string) (c : captures)
    (k : string -> captures -> option A) :
  m i (RGroup name r) s c k =
  m i r s c (fun s' c' => k s' ((name, substring 0 (String.length s - String.length s') s) :: c')).
Proof. reflexivity. Qed.

Lemma m_group_class_short {A : Type} (i : bool) (name : string) (cls : ascii -> bool) (min : nat)
    (s : string) (c : captures) (k : string -> captures -> option A) :
  (class_run cls s < min)%nat -> m i (RGroup name (RClass cls min)) s c k = None.
Proof. intros H. exact (m_class_short i cls min s c _ H). Qed.

Lemma class_run_digits_space_end (a : string) :
  a <> "" -> all_chars is_digit a = true -> class_run is_space a = O.
Proof. intros Ha Hd. rewrite <- (str_app_nil a). apply class_run_digits_space; assumption. Qed.

Lemma sorted_reverse_first {A : Type} (key : A -> Z * Z) (l : list A) (x : A) (rest : list A) :
  sorted_reverse key l = x :: rest ->
  exists l1 l2, l = l1 ++ x :: l2 /\
    Forall (fun y => key_lt (key y) (key x) = true) l1 /\
    Forall (fun y => key_lt (key x) (key y) = false) l2.
Proof.
  intros H. unfold sorted_reverse in H.
  assert (Hne : rev l <> []) by (intros E; rewrite E in H; cbn in H; discriminate).
  destruct (sort_last key (rev l) Hne) as (l1 & z & l2 & s' & E & Es & H1 & H2 & _).
  rewrite Es, rev_app_distr in H. cbn in H. injection H as <- _.
  exists (rev l2), (rev l1). split.
  - rewrite <- (rev_involutive l), E, rev_app_distr. cbn. rewrite <- app_assoc. reflexivity.
  - split; apply Forall_rev; assumption.
Qed.

Lemma sorted_reverse_nonempty {A : Type} (key : A -> Z * Z) (l : list A) (x : A) :
  In x l -> sorted_reverse key l <> [].
Proof.
  intros Hx E. unfold sorted_reverse in E.
  assert (Hin : In x (rev (sort_stable key (rev l))))
    by (apply in_rev in Hx; apply (proj1 (in_rev _ _)); apply (proj2 (sort_in key (rev l) x)); exact Hx).
  rewrite E in Hin. destruct Hin.
Qed.

Lemma activate_manually_success_in_venv (w : world) (venv bin lib py : string) (st st' : py_state) :
  activate_manually w venv bin lib py st = (true, st') ->
  is_in_virtualenv st' = true /\ sys_prefix st' = venv /\
  sys_real_prefix st' = Some (sys_prefix st) /\ sys_base_prefix st' = sys_base_prefix st.
Proof.
  intros H. destruct (activate_manually_success w venv bin lib py st st' H) as [site ->].
  unfold is_in_virtualenv. cbn. rewrite orb_true_r. auto.
Qed.

End Venv_facts.

Module Venv_props.
Import Py_re Venv Venv_facts.

(** [parse_python_version]: a file name ["python"], optional whitespace and
    a run of digits gives [(int(digits), -1)]. *)
Theorem parse_python_version_major (p w a : string) :
  path_name p = ("python" ++ w ++ a)%string ->
  all_chars is_space w = true -> a <> "" -> all_chars is_digit a = true ->
  parse_python_version p = (py_int a, (-1)%Z).
Proof.
  intros Hp Hw Ha Hd.
  rewrite (parse_of_match p [("major", a)]); [destruct a; [congruence|reflexivity]|].
  rewrite Hp. apply version_prefix; [exact Hw|apply class_run_digits_space_end; assumption|].
  rewrite m_seq. apply m_opt_some. rewrite m_seq.
  apply (m_group_class _ _ _ _ a a ""); [symmetry; apply str_app_nil|exact Hd|reflexivity|
    apply digits_length; exact Ha|].
  cbv beta. rewrite m_opt_none by reflexivity. cbv beta. apply version_tail.
Qed.

Lemma parse_python_version_major_witness :
  parse_python_version "/opt/venv/bin/python 3" = (py_int "3", (-1)%Z) /\ py_int "3" = 3%Z.
Proof.
  split; [|reflexivity].
  apply (parse_python_version_major "/opt/venv/bin/python 3" " " "3");
    [reflexivity|reflexivity|discriminate|reflexivity].
Defined.

(** [parse_python_version]: ["python"], optional whitespace, digits, a dot
    and digits gives [(int(major), int(minor))]. *)
Theorem parse_python_version_major_minor (p w a b : string) :
  path_name p = ("python" ++ w ++ a ++ "." ++ b)%string ->
  all_chars is_space w = true ->
  a <> "" -> all_chars is_digit a = true -> b <> "" -> all_chars is_digit b = true ->
  parse_python_version p = (py_int a, py_int b).
Proof.
  intros Hp Hw Ha Hda Hb Hdb.
  rewrite (parse_of_match p [("minor", b); ("major", a)]); [destruct a; [congruence|reflexivity]|].
  rewrite Hp. apply version_prefix; [exact Hw|apply class_run_digits_space; assumption|].
  rewrite m_seq. apply m_opt_some. rewrite m_seq.
  apply (m_group_class _ _ _ _ _ a ("." ++ b)); [reflexivity|exact Hda|reflexivity|
    apply digits_length; exact Ha|].
  cbv beta. apply m_opt_some. rewrite m_seq.
  rewrite (m_lit_ok _ _ _ b) by reflexivity. cbv beta.
  apply (m_group_class _ _ _ _ b b ""); [symmetry; apply str_app_nil|exact Hdb|reflexivity|
    apply digits_length; exact Hb|].
  cbv beta. apply version_tail.
Qed.

Lemma parse_python_version_major_minor_witness :
  parse_python_version "/opt/venv/bin/python3.10" = (py_int "3", py_int "10") /\
  (py_int "3", py_int "10") = (3%Z, 10%Z).
Proof.
  split; [|reflexivity].
  apply (parse_python_version_major_minor "/opt/venv/bin/python3.10" "" "3" "10");
    [reflexivity|reflexivity|discriminate|reflexivity|discriminate|reflexivity].
Defined.

(** [parse_python_version]: a third dotted component is matched by the
    trailing [(?:\.\d+)?] and ignored. *)
Theorem parse_python_version_patch_ignored (p w a b c : string) :
  path_name p = ("python" ++ w ++ a ++ "." ++ b ++ "." ++ c)%string ->
  all_chars is_space w = true ->
  a <> "" -> all_chars is_digit a = true -> b <> "" -> all_chars is_digit b = true ->
  c <> "" -> all_chars is_digit c = true ->
  parse_python_version p = (py_int a, py_int b).
Proof.
  intros Hp Hw Ha Hda Hb Hdb Hc Hdc.
  rewrite (parse_of_match p [("minor", b); ("major", a)]); [destruct a; [congruence|reflexivity]|].
  rewrite Hp. apply version_prefix; [exact Hw|apply class_run_digits_space; assumption|].
  rewrite m_seq. apply m_opt_some. rewrite m_seq.
  apply (m_group_class _ _ _ _ _ a ("." ++ b ++ "." ++ c)); [reflexivity|exact Hda|reflexivity|
    apply digits_length; exact Ha|].
  cbv beta. apply m_opt_some. rewrite m_seq.
  rewrite (m_lit_ok _ _ _ (b ++ "." ++ c)) by reflexivity. cbv beta.
  apply (m_group_class _ _ _ _ _ b ("." ++ c)); [reflexivity|exact Hdb|reflexivity|
    apply digits_length; exact Hb|].
  cbv beta. rewrite m_seq. apply m_opt_some. rewrite m_seq.
  rewrite (m_lit_ok _ _ _ c) by reflexivity. cbv beta.
  apply (m_class_ok _ _ _ _ c ""); [symmetry; apply str_app_nil|exact Hdc|reflexivity|
    apply digits_length; exact Hc|].
  reflexivity.
Qed.

Lemma parse_python_version_patch_ignored_witness :
  parse_python_version "/opt/venv/bin/python3.10.1" = (py_int "3", py_int "10").
Proof.
  apply (parse_python_version_patch_ignored "/opt/venv/bin/python3.10.1" "" "3" "10" "1");
    [reflexivity|reflexivity|discriminate|reflexivity|discriminate|reflexivity|
     discriminate|reflexivity].
Defined.

(** [parse_python_version]: ["python"] directly followed by a dot and
    digits is matched by the pattern, but with no [major] group, so the
    result is [(-1, -1)]. *)
Theorem parse_python_version_dot_no_major (p w a : string) :
  path_name p = ("python" ++ w ++ "." ++ a)%string ->
  all_chars is_space w = true -> a <> "" -> all_chars is_digit a = true ->
  parse_python_version p = ((-1)%Z, (-1)%Z).
Proof.
  intros Hp Hw Ha Hd.
  rewrite (parse_of_match p (@nil (string * string))); [reflexivity|].
  rewrite Hp. apply version_prefix; [exact Hw|reflexivity|].
  rewrite m_seq. rewrite m_opt_none.
  2: { rewrite m_seq. apply m_group_class_short.
       assert (E : class_run is_digit ("." ++ a)%string = O) by reflexivity. lia. }
  cbv beta. rewrite m_seq. apply m_opt_some. rewrite m_seq.
  rewrite (m_lit_ok _ _ _ a) by reflexivity. cbv beta.
  apply (m_class_ok _ _ _ a a ""); [symmetry; apply str_app_nil|exact Hd|reflexivity|
    apply digits_length; exact Ha|].
  reflexivity.
Qed.

Lemma parse_python_version_dot_no_major_witness :
  parse_python_version "/opt/venv/bin/python.5" = ((-1)%Z, (-1)%Z).
Proof.
  apply (parse_python_version_dot_no_major "/opt/venv/bin/python.5" "" "5");
    [reflexivity|reflexivity|discriminate|reflexivity].
Defined.

(** [parse_python_version]: a file name that does not start with
    ["python"] in any letter case gives [(-1, -1)]. *)
Theorem parse_python_version_not_python (p : string) :
  startswith (str_lower (path_name p)) "python" = false ->
  parse_python_version p = ((-1)%Z, (-1)%Z).
Proof.
  intros H. unfold parse_python_version.
  replace (re_match true version_pattern (path_name p)) with (@None captures); [reflexivity|].
  symmetry. unfold re_match, version_pattern. rewrite m_seq. apply m_lit_fail.
  destruct (lit_match true "python" (path_name p)) eqn:E; [|reflexivity].
  apply lit_match_ci_prefix in E. change (str_lower "python") with "python" in E. congruence.
Qed.

Lemma parse_python_version_not_python_witness :
  parse_python_version "/opt/venv/bin/pip3.12" = ((-1)%Z, (-1)%Z).
Proof. apply parse_python_version_not_python. reflexivity. Defined.

(** [parse_python_version] matches the word ["python"] ignoring case:
    only the rest of the file name matters. *)
Theorem parse_python_version_ignorecase (p q u rest : string) :
  str_lower u = "python" ->
  path_name p = (u ++ rest)%string -> path_name q = ("python" ++ rest)%string ->
  parse_python_version p = parse_python_version q.
Proof.
  intros Hu Hp Hq. unfold parse_python_version. rewrite Hp, Hq.
  unfold re_match, version_pattern. rewrite m_seq, m_seq.
  rewrite (m_lit_ok true "python" (u ++ rest) rest)
    by (apply lit_match_ci; rewrite Hu; reflexivity).
  rewrite (m_lit_ok true "python" ("python" ++ rest) rest) by reflexivity.
  reflexivity.
Qed.

Lemma parse_python_version_ignorecase_witness :
  parse_python_version "/opt/venv/Scripts/PYTHON3.11" = parse_python_version "/x/python3.11".
Proof.
  apply (parse_python_version_ignorecase _ _ "PYTHON" "3.11"); reflexivity.
Defined.

(** [sorted(..., key=parse_python_version, reverse=True)[0]]: the element
    picked is the first of the input with the greatest key; every element
    before it has a smaller key, none after it a greater one. *)
Theorem sorted_reverse_head (l : list string) (x : string) (rest : list string) :
  sorted_reverse parse_python_version l = x :: rest ->
  exists l1 l2, l = l1 ++ x :: l2 /\
    Forall (fun y => key_lt (parse_python_version y) (parse_python_version x) = true) l1 /\
    Forall (fun y => key_lt (parse_python_version x) (parse_python_version y) = false) l2.
Proof. apply sorted_reverse_first. Qed.

Lemma sorted_reverse_head_witness :
  exists l1 l2,
    ["/v/bin/python"; "/v/bin/python3"; "/v/bin/python3.9"; "/v/bin/python3.12"; "/v/bin/python3.12"]
      = l1 ++ "/v/bin/python3.12" :: l2 /\
    Forall (fun y => key_lt (parse_python_version y) (parse_python_version "/v/bin/python3.12") = true) l1 /\
    Forall (fun y => key_lt (parse_python_version "/v/bin/python3.12") (parse_python_version y) = false) l2.
Proof.
  apply (sorted_reverse_head _ "/v/bin/python3.12" ["/v/bin/python3.12"; "/v/bin/python3.9"; "/v/bin/python3"; "/v/bin/python"]).
  vm_compute. reflexivity.
Defined.

(** [activate_manually]: once the four paths are valid, [PATH] becomes
    the bin directory, the separator and the old [PATH] ([""] when unset,
    leaving a trailing separator), [VIRTUAL_ENV] the environment and
    [VIRTUAL_ENV_PROMPT] ["python-scripts"], whatever the call returns;
    other variables are unchanged. *)
Theorem activate_manually_environment (w : world) (venv bin lib py : string) (st : py_state) :
  validate_path_exists_and_type w venv "dir" = true ->
  validate_path_exists_and_type w bin "dir" = true ->
  validate_path_exists_and_type w lib "dir" = true ->
  validate_path_exists_and_type w py "file" = true ->
  environ (snd (activate_manually w venv bin lib py st)) !! "PATH" =
    Some (bin ++ String (pathsep w) (match environ st !! "PATH" with Some v => v | None => "" end))%string /\
  environ (snd (activate_manually w venv bin lib py st)) !! "VIRTUAL_ENV" = Some venv /\
  environ (snd (activate_manually w venv bin lib py st)) !! "VIRTUAL_ENV_PROMPT" = Some "python-scripts" /\
  (forall k, k <> "PATH" -> k <> "VIRTUAL_ENV" -> k <> "VIRTUAL_ENV_PROMPT" ->
     environ (snd (activate_manually w venv bin lib py st)) !! k = environ st !! k).
Proof.
  intros H1 H2 H3 H4.
  assert (Henv : environ (snd (activate_manually w venv bin lib py st)) = manual_env w venv bin st)
    by (destruct (activate_manually_cases w venv bin lib py st H1 H2 H3 H4) as [E|[site E]];
        rewrite E; reflexivity).
  rewrite Henv. unfold manual_env. split; [|split; [|split]].
  - rewrite lookup_insert_ne by discriminate. rewrite lookup_insert_ne by discriminate.
    apply lookup_insert_eq.
  - rewrite lookup_insert_ne by discriminate. apply lookup_insert_eq.
  - apply lookup_insert_eq.
  - intros k Hk1 Hk2 Hk3.
    rewrite lookup_insert_ne by congruence. rewrite lookup_insert_ne by congruence.
    apply lookup_insert_ne. congruence.
Qed.

Definition demo_world (iter : list string) (activate_this_ok : bool) (version_out : option string)
    : world :=
  {| platform_system := "Linux";
     pathsep := ":"%char;
     path_join := fun a b => (a ++ "/" ++ b)%string;
     path_exists := fun _ => true;
     path_is_dir := fun p => negb (startswith (str_lower (path_name p)) "python");
     path_is_file := fun p => startswith (str_lower (path_name p)) "python";
     path_resolve := fun p => p;
     run_python_version := fun _ => version_out;
     addsitedir := fun d sp => sp ++ [d];
     run_activate_this := fun _ st => (activate_this_ok, st);
     iterdir := fun _ => iter |}.

Definition demo_state : py_state :=
  {| environ := <["HOME" := "/home/u"]> ∅;
     sys_path := ["/usr/lib/python3.12"];
     sys_prefix := "/usr";
     sys_base_prefix := Some "/usr";
     sys_real_prefix := None |}.

Lemma activate_manually_environment_witness :
  environ (snd (activate_manually (demo_world [] false (Some "python3.12")) "/v" "/v/bin" "/v/lib" "/v/bin/python3" demo_state))
    !! "PATH" = Some "/v/bin:" /\
  environ (snd (activate_manually (demo_world [] false (Some "python3.12")) "/v" "/v/bin" "/v/lib" "/v/bin/python3" demo_state))
    !! "VIRTUAL_ENV" = Some "/v".
Proof.
  destruct (activate_manually_environment (demo_world [] false (Some "python3.12")) "/v" "/v/bin" "/v/lib" "/v/bin/python3"
              demo_state) as (HP & HV & _ & _); [reflexivity|reflexivity|reflexivity|reflexivity|].
  split; [rewrite HP; reflexivity|exact HV].
Defined.

(** [activate_manually]: when one of the four paths is missing or of the
    wrong type, it returns [False] and changes nothing. *)
Theorem activate_manually_invalid_path (w : world) (venv bin lib py : string) (st : py_state) :
  validate_path_exists_and_type w venv "dir" = false \/
  validate_path_exists_and_type w bin "dir" = false \/
  validate_path_exists_and_type w lib "dir" = false \/
  validate_path_exists_and_type w py "file" = false ->
  activate_manually w venv bin lib py st = (false, st).
Proof.
  intros H. apply activate_manually_invalid. cbn [forallb].
  destruct H as [H|[H|[H|H]]]; rewrite H; cbn [andb]; rewrite ?andb_false_r; reflexivity.
Qed.

Lemma activate_manually_invalid_path_witness :
  activate_manually (demo_world [] false (Some "python3.12")) "/v" "/v/bin" "/v/lib" "/v/bin" demo_state
  = (false, demo_state).
Proof.
  apply activate_manually_invalid_path. right. right. right. reflexivity.
Defined.

(** [activate_manually]: a failure after the path checks (no version
    string, no site-packages directory) returns [False] with the
    environment variables already changed but [sys.path], [sys.prefix]
    and [sys.real_prefix] untouched. *)
Theorem activate_manually_partial_failure (w : world) (venv bin lib py : string) (st st' : py_state) :
  validate_path_exists_and_type w venv "dir" = true ->
  validate_path_exists_and_type w bin "dir" = true ->
  validate_path_exists_and_type w lib "dir" = true ->
  validate_path_exists_and_type w py "file" = true ->
  activate_manually w venv bin lib py st = (false, st') ->
  environ st' !! "VIRTUAL_ENV" = Some venv /\
  sys_path st' = sys_path st /\ sys_prefix st' = sys_prefix st /\
  sys_real_prefix st' = sys_real_prefix st /\ is_in_virtualenv st' = is_in_virtualenv st.
Proof.
  intros H1 H2 H3 H4 H.
  destruct (activate_manually_cases w venv bin lib py st H1 H2 H3 H4) as [E|[site E]];
    rewrite E in H; injection H as ?; [|discriminate].
  subst st'. cbn. unfold manual_env.
  rewrite lookup_insert_ne by discriminate. rewrite lookup_insert_eq.
  unfold is_in_virtualenv. cbn. auto.
Qed.

Lemma activate_manually_partial_failure_witness :
  environ demo_state !! "VIRTUAL_ENV" = None /\
  environ (snd (activate_manually (demo_world [] false None) "/v" "/v/bin" "/v/lib" "/v/bin/python3"
                  demo_state)) !! "VIRTUAL_ENV" = Some "/v" /\
  sys_path (snd (activate_manually (demo_world [] false None) "/v" "/v/bin" "/v/lib" "/v/bin/python3"
                  demo_state)) = sys_path demo_state /\
  is_in_virtualenv (snd (activate_manually (demo_world [] false None) "/v" "/v/bin" "/v/lib"
                  "/v/bin/python3" demo_state)) = false.
Proof.
  destruct (activate_manually_partial_failure (demo_world [] false None) "/v" "/v/bin" "/v/lib"
              "/v/bin/python3" demo_state
              (snd (activate_manually (demo_world [] false None) "/v" "/v/bin" "/v/lib"
                      "/v/bin/python3" demo_state)))
    as (HV & HP & _ & _ & HI); [reflexivity|reflexivity|reflexivity|reflexivity|reflexivity|].
  split; [reflexivity|]. split; [exact HV|]. split; [exact HP|]. rewrite HI. reflexivity.
Defined.

(** [activate_manually]: on success the interpreter counts as inside a
    virtual environment, [sys.prefix] is the environment and
    [sys.real_prefix] the previous prefix. *)
Theorem activate_manually_success_state (w : world) (venv bin lib py : string) (st st' : py_state) :
  activate_manually w venv bin lib py st = (true, st') ->
  is_in_virtualenv st' = true /\ sys_prefix st' = venv /\
  sys_real_prefix st' = Some (sys_prefix st) /\ sys_base_prefix st' = sys_base_prefix st.
Proof. apply activate_manually_success_in_venv. Qed.

Lemma activate_manually_success_state_witness :
  is_in_virtualenv demo_state = false /\
  is_in_virtualenv (snd (activate_manually (demo_world [] false (Some "python3.12")) "/v" "/v/bin"
                           "/v/lib" "/v/bin/python3" demo_state)) = true.
Proof.
  split; [reflexivity|].
  apply (activate_manually_success_state (demo_world [] false (Some "python3.12")) "/v" "/v/bin"
           "/v/lib" "/v/bin/python3" demo_state). reflexivity.
Defined.

(** [activate_manually]: when [site.addsitedir] only appends to
    [sys.path], a successful call leaves the appended entries first,
    followed by the previous [sys.path] in its order. *)
Theorem activate_manually_sys_path_order (w : world) (venv bin lib py : string) (st st' : py_state) :
  (forall d sp, exists added, addsitedir w d sp = sp ++ added) ->
  activate_manually w venv bin lib py st = (true, st') ->
  exists site added, addsitedir w site (sys_path st) = sys_path st ++ added /\
                     sys_path st' = added ++ sys_path st.
Proof.
  intros Happ H. destruct (activate_manually_success w venv bin lib py st st' H) as [site ->].
  destruct (Happ site (sys_path st)) as [added E]. exists site, added. split; [exact E|].
  cbn [sys_path]. rewrite E, List.skipn_app, List.firstn_app, Nat.sub_diag, skipn_all, firstn_all.
  cbn. rewrite app_nil_r. reflexivity.
Qed.

Lemma activate_manually_sys_path_order_witness :
  sys_path (snd (activate_manually (demo_world [] false (Some "python3.12")) "/v" "/v/bin"
                   "/v/lib" "/v/bin/python3" demo_state))
  = ["/v/lib/python3.12/site-packages"; "/usr/lib/python3.12"] /\
  exists site added, addsitedir (demo_world [] false (Some "python3.12")) site (sys_path demo_state)
                     = sys_path demo_state ++ added /\
                sys_path (snd (activate_manually (demo_world [] false (Some "python3.12")) "/v" "/v/bin"
                   "/v/lib" "/v/bin/python3" demo_state)) = added ++ sys_path demo_state.
Proof.
  split; [reflexivity|].
  apply (activate_manually_sys_path_order (demo_world [] false (Some "python3.12")) "/v" "/v/bin"
           "/v/lib" "/v/bin/python3" demo_state).
  - intros d sp. exists [d]. reflexivity.
  - reflexivity.
Defined.

(** The code run on import: once [activate_manually] has succeeded, running
    it again (another import of a fresh copy of the module) skips
    activation and leaves the state unchanged. *)
Theorem on_import_after_manual_activation (w : world) (VENV_PATH venv bin lib py : string)
    (st st' : py_state) :
  activate_manually w venv bin lib py st = (true, st') ->
  on_import w VENV_PATH st' = Imported st'.
Proof.
  intros H. unfold on_import.
  rewrite (proj1 (activate_manually_success_in_venv w venv bin lib py st st' H)). reflexivity.
Qed.

Lemma on_import_after_manual_activation_witness :
  on_import (demo_world [] false (Some "python3.12")) "/v"
    (snd (activate_manually (demo_world [] false (Some "python3.12")) "/v" "/v/bin" "/v/lib"
            "/v/bin/python3" demo_state))
  = Imported (snd (activate_manually (demo_world [] false (Some "python3.12")) "/v" "/v/bin"
                     "/v/lib" "/v/bin/python3" demo_state)).
Proof.
  apply (on_import_after_manual_activation (demo_world [] false (Some "python3.12")) "/v" "/v"
           "/v/bin" "/v/lib" "/v/bin/python3" demo_state). reflexivity.
Defined.

(** [activate_virtualenv]: on a platform whose name contains none of
    ["windows"], ["darwin"], ["linux"] it returns [False] and changes
    nothing. *)
Theorem activate_virtualenv_unsupported (w : world) (venv_path : string) (st : py_state) :
  str_contains "windows" (SYS_PLATFORM w) = false ->
  str_contains "darwin" (SYS_PLATFORM w) = false ->
  str_contains "linux" (SYS_PLATFORM w) = false ->
  activate_virtualenv w venv_path st = (false, st).
Proof.
  intros H1 H2 H3. unfold activate_virtualenv. rewrite H1, H2, H3. reflexivity.
Qed.

Lemma activate_virtualenv_unsupported_witness :
  activate_virtualenv
    {| platform_system := "FreeBSD"; pathsep := ":"%char; path_join := fun a b => (a ++ "/" ++ b)%string;
       path_exists := fun _ => true; path_is_dir := fun _ => true; path_is_file := fun _ => true;
       path_resolve := fun p => p; run_python_version := fun _ => None;
       addsitedir := fun d sp => sp ++ [d]; run_activate_this := fun _ st => (true, st);
       iterdir := fun _ => ["/v/bin/python3"] |} "/v" demo_state = (false, demo_state).
Proof. apply activate_virtualenv_unsupported; reflexivity. Defined.

(** [activate_virtualenv] on macOS or Linux: when [bin] is a directory
    holding an entry whose name fully matches the executable pattern, it
    tries [activate_this.py] first and, only if that fails, activates
    manually with the first matching entry of greatest
    [parse_python_version] key. *)
Theorem activate_virtualenv_posix_choice (w : world) (v : string) (st : py_state) (p0 : string) :
  str_contains "windows" (SYS_PLATFORM w) = false ->
  str_contains "darwin" (SYS_PLATFORM w) || str_contains "linux" (SYS_PLATFORM w) = true ->
  validate_path_exists_and_type w (path_join w v "bin") "dir" = true ->
  In p0 (iterdir w (path_join w v "bin")) ->
  re_fullmatch false exec_pattern_posix (path_name p0) <> None ->
  exists l1 py l2,
    filter (fun p => match re_fullmatch false exec_pattern_posix (path_name p) with
                     | Some _ => true | None => false end)
           (iterdir w (path_join w v "bin")) = l1 ++ py :: l2 /\
    Forall (fun y => key_lt (parse_python_version y) (parse_python_version py) = true) l1 /\
    Forall (fun y => key_lt (parse_python_version py) (parse_python_version y) = false) l2 /\
    activate_virtualenv w v st =
      (let '(ok, st1) :=
         activate_via_activate_this w (path_join w (path_join w v "bin") "activate_this.py") st in
       if ok then (true, st1)
       else activate_manually w v (path_join w v "bin") (path_join w v "lib") py st1).
Proof.
  intros Hwin Hposix Hbin Hin Hm.
  set (execs := filter (fun p => match re_fullmatch false exec_pattern_posix (path_name p) with
                                 | Some _ => true | None => false end)
                       (iterdir w (path_join w v "bin"))).
  assert (Hin' : In p0 execs).
  { apply filter_In. split; [exact Hin|]. destruct (re_fullmatch _ _ _); [reflexivity|congruence]. }
  destruct (sorted_reverse parse_python_version execs) as [|py rest] eqn:Es;
    [exfalso; exact (sorted_reverse_nonempty _ _ _ Hin' Es)|].
  destruct (sorted_reverse_first _ _ _ _ Es) as (l1 & l2 & E & H1 & H2).
  exists l1, py, l2. split; [exact E|]. split; [exact H1|]. split; [exact H2|].
  unfold activate_virtualenv. rewrite Hwin, Hposix. cbn iota zeta.
  rewrite Hbin. cbn [negb]. fold execs.
  destruct execs as [|e es] eqn:Ee; [destruct Hin'|]. rewrite Es. reflexivity.
Qed.

Lemma activate_virtualenv_posix_choice_witness :
  exists l1 py l2,
    filter (fun p => match re_fullmatch false exec_pattern_posix (path_name p) with
                     | Some _ => true | None => false end)
      ["/v/bin/python"; "/v/bin/pip"; "/v/bin/python3"; "/v/bin/python3.12"; "/v/bin/python3.9"]
      = l1 ++ py :: l2 /\
    Forall (fun y => key_lt (parse_python_version y) (parse_python_version py) = true) l1 /\
    Forall (fun y => key_lt (parse_python_version py) (parse_python_version y) = false) l2 /\
    activate_virtualenv
      (demo_world ["/v/bin/python"; "/v/bin/pip"; "/v/bin/python3"; "/v/bin/python3.12"; "/v/bin/python3.9"]
         false (Some "python3.12")) "/v" demo_state =
      (let '(ok, st1) :=
         activate_via_activate_this
           (demo_world ["/v/bin/python"; "/v/bin/pip"; "/v/bin/python3"; "/v/bin/python3.12"; "/v/bin/python3.9"]
              false (Some "python3.12")) "/v/bin/activate_this.py" demo_state in
       if ok then (true, st1)
       else activate_manually
              (demo_world ["/v/bin/python"; "/v/bin/pip"; "/v/bin/python3"; "/v/bin/python3.12"; "/v/bin/python3.9"]
                 false (Some "python3.12")) "/v" "/v/bin" "/v/lib" py st1).
Proof.
  apply (activate_virtualenv_posix_choice
           (demo_world ["/v/bin/python"; "/v/bin/pip"; "/v/bin/python3"; "/v/bin/python3.12"; "/v/bin/python3.9"]
              false (Some "python3.12")) "/v" demo_state "/v/bin/python3");
    [reflexivity|reflexivity|reflexivity|right; right; left; reflexivity|discriminate].
Defined.

(** The executable filter of [activate_virtualenv] on macOS and Linux
    accepts ["python"] followed by digits, and by digits, a dot and
    digits. *)
Theorem exec_pattern_posix_accepts (a b : string) :
  a <> "" -> all_chars is_digit a = true -> b <> "" -> all_chars is_digit b = true ->
  re_fullmatch false exec_pattern_posix ("python" ++ a)%string <> None /\
  re_fullmatch false exec_pattern_posix ("python" ++ a ++ "." ++ b)%string <> None.
Proof.
  intros Ha Hda Hb Hdb.
  assert (H1 : exists x, re_fullmatch false exec_pattern_posix ("python" ++ a)%string = Some x).
  { eexists. unfold re_fullmatch, exec_pattern_posix, rep03.
    rewrite m_seq. rewrite (m_lit_ok false "python" ("python" ++ a) a) by reflexivity. cbv beta.
    rewrite m_seq. apply m_opt_some. rewrite m_group, m_seq.
    apply (m_class_ok _ _ _ _ a ""); [symmetry; apply str_app_nil|exact Hda|reflexivity|
      apply digits_length; exact Ha|].
    reflexivity. }
  assert (H2 : exists x, re_fullmatch false exec_pattern_posix ("python" ++ a ++ "." ++ b)%string = Some x).
  { eexists. unfold re_fullmatch, exec_pattern_posix, rep03.
    rewrite m_seq. rewrite (m_lit_ok false "python" ("python" ++ a ++ "." ++ b) (a ++ "." ++ b)) by reflexivity. cbv beta.
    rewrite m_seq. apply m_opt_some. rewrite m_group, m_seq.
    apply (m_class_ok _ _ _ _ a ("." ++ b)); [reflexivity|exact Hda|reflexivity|
      apply digits_length; exact Ha|].
    apply m_opt_some. rewrite m_seq, m_group, m_seq.
    rewrite (m_lit_ok _ _ _ b) by reflexivity. cbv beta.
    apply (m_class_ok _ _ _ _ b ""); [symmetry; apply str_app_nil|exact Hdb|reflexivity|
      apply digits_length; exact Hb|].
    reflexivity. }
  destruct H1 as [x1 E1], H2 as [x2 E2]. rewrite E1, E2. split; discriminate.
Qed.

Lemma exec_pattern_posix_accepts_witness :
  re_fullmatch false exec_pattern_posix "python3" <> None /\
  re_fullmatch false exec_pattern_posix "python3.12" <> None.
Proof.
  apply (exec_pattern_posix_accepts "3" "12"); [discriminate|reflexivity|discriminate|reflexivity].
Defined.

End Venv_props.
